(** * Game Mashup Creator: the request pipeline of [src/main.py]

    A shallow embedding of the three functions behind the
    [/api/create-mashup] endpoint,

      - [create_game_mashup]   (prompt construction and the completion call),
      - [process_game_mashup]  (validation, orchestration, response shaping),
      - [api_create_mashup]    (the HTTP handler and its [except] clauses),

    of the code around them (the start-up block that creates the client,
    the [home], [health_check] and [test_endpoint] handlers, and the part of
    the demo page's [createMashup] script that decides whether to post),
    followed by the properties the specification states about them and
    further properties read off the code.

    Python values are modelled as the interpreter has them: a [str] is a
    sequence of Unicode code points, a parsed JSON body is an untyped value
    ([None], [bool], [int], [float], [str], [list], [dict]), exceptions carry
    their class and their [str(e)] text, and everything that touches the
    outside world (the OpenAI client, [os.urandom], the clock, [print]) goes
    through an explicit world state.  Standard output is taken to be a
    UTF-8 stream: [print] raises on a lone surrogate and on nothing else. *)

From Stdlib Require Import ZArith NArith List String Ascii Lia.
From Stdlib Require Import Floats.SpecFloat DecimalString.
From stdpp Require Import gmap list.

Local Set Warnings "-register-all".
Local Open Scope N_scope.

(* ===================================================================== *)
(** * Python strings *)
(* ===================================================================== *)

(** A Python [str] is a sequence of code points: [len] counts code points
    and slicing cuts between them. *)
Abbreviation pystr := (list N) (only parsing).

(** Source literals are written as UTF-8 text, as in [main.py], and decoded
    to code points. *)
Fixpoint utf8_decode (bs : list N) : pystr :=
  match bs with
  | [] => []
  | b0 :: r0 =>
    if b0 <? 0x80 then b0 :: utf8_decode r0
    else
      match r0 with
      | [] => []
      | b1 :: r1 =>
        if b0 <? 0xE0 then
          N.lor (N.shiftl (N.land b0 0x1F) 6) (N.land b1 0x3F) :: utf8_decode r1
        else
          match r1 with
          | [] => []
          | b2 :: r2 =>
            if b0 <? 0xF0 then
              N.lor (N.shiftl (N.land b0 0x0F) 12)
                (N.lor (N.shiftl (N.land b1 0x3F) 6) (N.land b2 0x3F))
                :: utf8_decode r2
            else
              match r2 with
              | [] => []
              | b3 :: r3 =>
                N.lor (N.shiftl (N.land b0 0x07) 18)
                  (N.lor (N.shiftl (N.land b1 0x3F) 12)
                     (N.lor (N.shiftl (N.land b2 0x3F) 6) (N.land b3 0x3F)))
                  :: utf8_decode r3
              end
          end
      end
  end.

Fixpoint bytes_of_string (s : string) : list N :=
  match s with
  | EmptyString => []
  | String a s' => N_of_ascii a :: bytes_of_string s'
  end.

Definition py (s : string) : pystr := utf8_decode (bytes_of_string s).

(** [s.startswith(p)] and [p in s] on strings. *)
Fixpoint startswith (s p : pystr) : bool :=
  match p, s with
  | [], _ => true
  | _ :: _, [] => false
  | a :: p', b :: s' => (a =? b) && startswith s' p'
  end.

Fixpoint str_contains (s p : pystr) : bool :=
  startswith s p ||
  match s with
  | [] => false
  | _ :: s' => str_contains s' p
  end.

(** [s] holds [p] as a contiguous run of code points. *)
Definition substring (p s : pystr) : Prop :=
  exists pre post : pystr, s = pre ++ p ++ post.

(** [s] holds the strings of [hs] one after the other, in this order and
    without overlap. *)
Fixpoint occur_in_order (hs : list pystr) (s : pystr) : Prop :=
  match hs with
  | [] => True
  | h :: hs' => exists pre post : pystr, s = pre ++ h ++ post /\ occur_in_order hs' post
  end.

(** Executable search for [occur_in_order]: find the leftmost occurrence of
    the first string, continue behind it. *)
Fixpoint after_first (s p : pystr) : option pystr :=
  if startswith s p then Some (drop (length p) s)
  else
    match s with
    | [] => None
    | _ :: s' => after_first s' p
    end.

Fixpoint occur_in_order_b (hs : list pystr) (s : pystr) : bool :=
  match hs with
  | [] => true
  | h :: hs' =>
    match after_first s h with
    | Some rest => occur_in_order_b hs' rest
    | None => false
    end
  end.

(* ===================================================================== *)
(** * Parsed JSON values *)
(* ===================================================================== *)

(** What [request.json] hands to the handler: Python's [json] module maps
    [null] to [None], numbers to [int] or [float], objects to [dict]. *)
Inductive json : Type :=
| JNull
| JBool (b : bool)
| JInt (z : Z)
| JFloat (f : spec_float)
| JStr (s : pystr)
| JArr (l : list json)
| JObj (m : gmap pystr json).

(** Python truthiness, the meaning of [not v]. *)
Definition truthy (v : json) : bool :=
  match v with
  | JNull => false
  | JBool b => b
  | JInt z => negb (z =? 0)%Z
  | JFloat (S754_zero _) => false
  | JFloat _ => true
  | JStr s => negb (bool_decide (s = []))
  | JArr l => match l with [] => false | _ :: _ => true end
  | JObj m => negb (bool_decide (m = ∅))
  end.

Definition type_name (v : json) : pystr :=
  match v with
  | JNull => py "NoneType"
  | JBool _ => py "bool"
  | JInt _ => py "int"
  | JFloat _ => py "float"
  | JStr _ => py "str"
  | JArr _ => py "list"
  | JObj _ => py "dict"
  end.

Definition is_str (v : json) : bool :=
  match v with JStr _ => true | _ => false end.

(* ===================================================================== *)
(** * Exceptions and effects *)
(* ===================================================================== *)

(** The exception classes the pipeline can meet.  [ClientError] stands for
    whatever the OpenAI client raises; the handler only ever asks whether an
    exception is an instance of [ValueError], so that is what is recorded
    about a foreign class. *)
Inductive exc_class : Type :=
| ValueError
| TypeError
| KeyError
| IndexError
| UnicodeEncodeError
| ClientError (derives_ValueError : bool).

(** An exception object: its class and [str(e)]. *)
Record pyexc : Type := PyExc { exc_type : exc_class; exc_str : pystr }.

Definition isinstance_ValueError (e : pyexc) : bool :=
  match exc_type e with
  | ValueError => true
  | UnicodeEncodeError => true          (* a UnicodeError, hence a ValueError *)
  | ClientError b => b
  | TypeError | KeyError | IndexError => false
  end.

Inductive outcome (A : Type) : Type :=
| Return (a : A)
| Raise (e : pyexc).
Arguments Return {A} a.
Arguments Raise {A} e.

(** ** The OpenAI client *)

(** The keyword arguments of [client.chat.completions.create]. *)
Record ChatRequest : Type := {
  model : pystr;
  messages : list (pystr * pystr);   (* role, content *)
  temperature : spec_float;
  max_tokens : Z
}.

Record ChatCompletionMessage : Type := { content : option pystr }.
Record Choice : Type := { message : ChatCompletionMessage }.
Record ChatCompletion : Type := { choices : list Choice }.

(** A configured client is an oracle: what the [n]-th call of this process
    answers to a request.  Two identical requests may be answered
    differently. *)
Definition OpenAI : Type := nat -> ChatRequest -> outcome ChatCompletion.

(** ** Process configuration and world state *)

(** What is fixed for the lifetime of the process: the module-level
    [client] (None when no API key was found at import time), and the
    behaviour of the interpreter and the operating system. *)
Record Env : Type := {
  client : option OpenAI;
  (* the [i]-th byte of the [k]-th [os.urandom(16)] read *)
  os_urandom : nat -> nat -> Byte.byte;
  (* [datetime.now().strftime("%B %d, %Y at %I:%M %p")] at the [k]-th read *)
  now_strftime : nat -> pystr;
  (* [str(v)] for a value that is not a [str], as an f-string renders it *)
  py_str : json -> pystr
}.

Record World : Type := {
  chat_calls : list ChatRequest;   (* requests sent to the client, oldest first *)
  urandom_reads : nat;
  clock_reads : nat;
  stdout : list pystr              (* lines printed, oldest first *)
}.

Definition log_call (req : ChatRequest) (w : World) : World :=
  {| chat_calls := chat_calls w ++ [req]; urandom_reads := urandom_reads w;
     clock_reads := clock_reads w; stdout := stdout w |}.

Definition log_line (line : pystr) (w : World) : World :=
  {| chat_calls := chat_calls w; urandom_reads := urandom_reads w;
     clock_reads := clock_reads w; stdout := stdout w ++ [line] |}.

Definition count_urandom (w : World) : World :=
  {| chat_calls := chat_calls w; urandom_reads := S (urandom_reads w);
     clock_reads := clock_reads w; stdout := stdout w |}.

Definition count_clock (w : World) : World :=
  {| chat_calls := chat_calls w; urandom_reads := urandom_reads w;
     clock_reads := S (clock_reads w); stdout := stdout w |}.

(** Computations: read and update the world, return or raise. *)
Definition M (A : Type) : Type := World -> outcome A * World.

Definition ret {A} (a : A) : M A := fun w => (Return a, w).
Definition raise {A} (e : pyexc) : M A := fun w => (Raise e, w).
Definition bind {A B} (m : M A) (k : A -> M B) : M B :=
  fun w =>
    match m w with
    | (Return a, w') => k a w'
    | (Raise e, w') => (Raise e, w')
    end.
Definition lift {A} (o : outcome A) : M A := fun w => (o, w).

(** Pure code that may raise. *)
Definition obind {A B} (o : outcome A) (k : A -> outcome B) : outcome B :=
  match o with
  | Return a => k a
  | Raise e => Raise e
  end.

Declare Scope py_scope.
Delimit Scope py_scope with py_m.
Notation "'do' x <- m ; k" := (bind m (fun x => k))
  (at level 10, x name, m at level 100, k at level 200) : py_scope.
Notation "'run' m ; k" := (bind m (fun _ => k))
  (at level 10, m at level 100, k at level 200) : py_scope.

Definition chat_completions_create (c : OpenAI) (req : ChatRequest) : M ChatCompletion :=
  fun w => (c (length (chat_calls w)) req, log_call req w).

(* ===================================================================== *)
(** * [uuid.uuid4] and [str(UUID)] *)
(* ===================================================================== *)

(** CPython's [uuid] module on the integers it builds.  The integer of a
    UUID is never negative, so it lives in [N]; [x & ~m] is [N.ldiff x m]. *)

(** [int.from_bytes(bs, 'big')] *)
Definition int_from_bytes (bs : list Byte.byte) : N :=
  fold_left (fun acc b => acc * 256 + Byte.to_N b) bs 0.

Record UUID : Type := { uuid_int : N }.

(** [UUID(bytes=bs, version=v)]: the variant and version bits are forced. *)
Definition UUID_of_bytes (bs : list Byte.byte) (version : N) : UUID :=
  let i := int_from_bytes bs in
  let i := N.ldiff i (N.shiftl 0xc000 48) in
  let i := N.lor i (N.shiftl 0x8000 48) in
  let i := N.ldiff i (N.shiftl 0xf000 64) in
  let i := N.lor i (N.shiftl version 76) in
  {| uuid_int := i |}.

Definition hex_digit (d : N) : N :=
  if d <? 10 then 48 + d else 87 + d.

Fixpoint hex_digits (fuel : nat) (n : N) (acc : pystr) : pystr :=
  match fuel with
  | O => acc
  | S fuel' =>
    if n =? 0 then acc
    else hex_digits fuel' (n / 16) (hex_digit (n mod 16) :: acc)
  end.

(** ['%x' % n]; a number of [k] bits has at most [k] hexadecimal digits. *)
Definition format_x (n : N) : pystr :=
  if n =? 0 then py "0" else hex_digits (N.size_nat n) n [].

(** ['%032x' % n]: padded with zeros on the left to 32 characters. *)
Definition format_032x (n : N) : pystr :=
  let digits := format_x n in
  repeat 48 (32 - length digits)%nat ++ digits.

(** [s[a:b]] for [0 <= a <= b]. *)
Definition slice (a b : nat) (s : pystr) : pystr := take (b - a) (drop a s).

(** [UUID.__str__] *)
Definition UUID_str (u : UUID) : pystr :=
  let hex := format_032x (uuid_int u) in
  slice 0 8 hex ++ py "-" ++ slice 8 12 hex ++ py "-" ++ slice 12 16 hex
    ++ py "-" ++ slice 16 20 hex ++ py "-" ++ drop 20 hex.

(** Reading a hexadecimal string back, [int(s, 16)] on lowercase digits. *)
Definition hex_digit_value (c : N) : N :=
  if c <? 58 then c - 48 else c - 87.

Definition hex_value (s : pystr) : N :=
  fold_left (fun acc c => acc * 16 + hex_digit_value c) s 0.

Definition is_lower_hex (c : N) : bool :=
  ((48 <=? c) && (c <=? 57)) || ((97 <=? c) && (c <=? 102)).

(* ===================================================================== *)
(** * [print] *)
(* ===================================================================== *)

(** Standard output is a UTF-8 text stream with the default, strict error
    handling: a lone surrogate cannot be encoded.  [print] then raises
    UnicodeEncodeError before anything is written. *)
Definition is_surrogate (c : N) : bool := (0xD800 <=? c) && (c <=? 0xDFFF).

Definition has_surrogate (s : pystr) : bool := existsb is_surrogate s.

(** The encoder reports the first run of surrogates: where it starts and
    how many there are. *)
Fixpoint surrogate_run (s : pystr) : nat :=
  match s with
  | c :: s' => if is_surrogate c then S (surrogate_run s') else O
  | [] => O
  end.

Fixpoint first_surrogate (s : pystr) (pos : nat) : option (nat * N * nat) :=
  match s with
  | [] => None
  | c :: s' =>
    if is_surrogate c then Some (pos, c, S (surrogate_run s'))
    else first_surrogate s' (S pos)
  end.

Definition decimal (n : nat) : pystr :=
  py (NilZero.string_of_int (Z.to_int (Z.of_nat n))).

(** [str(e)] of the UnicodeEncodeError for [s]. *)
Definition unicode_encode_error (s : pystr) : pyexc :=
  PyExc UnicodeEncodeError
    match first_surrogate s 0 with
    | Some (start, c, 1%nat) =>
      py "'utf-8' codec can't encode character '\u" ++ format_x c
        ++ py "' in position " ++ decimal start ++ py ": surrogates not allowed"
    | Some (start, _, len) =>
      py "'utf-8' codec can't encode characters in position " ++ decimal start
        ++ py "-" ++ decimal (start + len - 1) ++ py ": surrogates not allowed"
    | None => []
    end.

Definition print (line : pystr) : M unit :=
  fun w =>
    if has_surrogate line then (Raise (unicode_encode_error line), w)
    else (Return tt, log_line line w).

(* ===================================================================== *)
(** * Untyped operations on the request body *)
(* ===================================================================== *)

(** Texts of interpreter-raised errors are worded as CPython 3.12 words
    them. *)

(** [field in data] *)
Definition py_in (field : pystr) (data : json) : outcome bool :=
  match data with
  | JObj m => Return (bool_decide (is_Some (m !! field)))
  | JArr l =>
    Return (existsb (fun x => match x with
                              | JStr s => bool_decide (s = field)
                              | _ => false
                              end) l)
  | JStr s => Return (str_contains s field)
  | JNull | JBool _ | JInt _ | JFloat _ =>
    Raise (PyExc TypeError
             (py "argument of type '" ++ type_name data ++ py "' is not iterable"))
  end.

(** [data[field]] for a string key *)
Definition getitem (data : json) (field : pystr) : outcome json :=
  match data with
  | JObj m =>
    match m !! field with
    | Some v => Return v
    | None => Raise (PyExc KeyError (py "'" ++ field ++ py "'"))
    end
  | JArr _ =>
    Raise (PyExc TypeError (py "list indices must be integers or slices, not str"))
  | JStr _ =>
    Raise (PyExc TypeError (py "string indices must be integers, not 'str'"))
  | JNull | JBool _ | JInt _ | JFloat _ =>
    Raise (PyExc TypeError
             (py "'" ++ type_name data ++ py "' object is not subscriptable"))
  end.

(** [x[:100] + "..." if len(x) > 100 else x] *)
Definition excerpt (x : json) : outcome json :=
  match x with
  | JStr s =>
    Return (JStr (if (100 <? length s)%nat then take 100 s ++ py "..." else s))
  | JArr l =>
    if (100 <? length l)%nat then
      Raise (PyExc TypeError
               (py "can only concatenate list (not " ++ [34] ++ py "str" ++ [34]
                  ++ py ") to list"))
    else Return x
  | JObj m =>
    if (100 <? size m)%nat then Raise (PyExc KeyError (py "slice(None, 100, None)"))
    else Return x
  | JNull | JBool _ | JInt _ | JFloat _ =>
    Raise (PyExc TypeError
             (py "object of type '" ++ type_name x ++ py "' has no len()"))
  end.

(* ===================================================================== *)
(** * [main.py] *)
(* ===================================================================== *)

Local Open Scope py_scope.

(** The f-string of [create_game_mashup], around its two replacement
    fields. *)
Definition prompt_template (game1_data game2_data : pystr) : pystr :=
  py "
    You are an expert game designer and creative director. I will give you two different games, and I want you to create an innovative mashup that combines the best elements of both into a completely new game concept.

    **Game 1:**
    " ++ game1_data ++ py "

    **Game 2:**
    " ++ game2_data ++ py "

    Create a detailed game concept that fuses these two games together. Your response should include:

    ## 🎮 Game Title
    Create an original, catchy title that doesn't use proper nouns from either source game.

    ## 🎯 Genre & Core Concept
    Define the hybrid genre and explain the core fusion concept in 2-3 sentences.

    ## ⚡ Unique Selling Points
    List 3-4 compelling features that make this mashup special and marketable.

    ## 🔄 Core Game Loop
    Describe the primary gameplay cycle that players will experience repeatedly.

    ## 🎨 Key Mechanics Fusion
    Explain how you're combining specific mechanics from both games in creative ways.

    ## 👥 Target Audience
    Identify who would play this game and why it appeals to fans of both source games.

    ## 💰 Monetization Strategy
    Suggest 2-3 ways to make this game profitable while keeping it player-friendly.

    ## 🚀 Marketing Hooks
    Provide 3 compelling marketing angles that would grab attention.

    IMPORTANT: Be creative and innovative. Don't just list features from both games - truly blend them into something new. Use professional language with perfect grammar and formatting.
    ".

Definition system_content : pystr :=
  py "You are a world-class game designer known for creating innovative game concepts that successfully blend different genres and mechanics. You deliver creative, detailed, and marketable game ideas.".

(** 0.85 as the binary64 literal it is: [0x1.b333333333333p-1]. *)
Definition temperature_0_85 : spec_float :=
  S754_finite false 0x1b333333333333 (-53).

Definition required_fields : list pystr :=
  [py "mashup_name"; py "game1_data"; py "game2_data"].

(** What the handler sends back. *)
Record SourceGames : Type := { game1 : json; game2 : json }.

Record MashupResult : Type := {
  success : bool;
  message_text : pystr;        (* key ['message'] *)
  report_id : pystr;
  mashup_name : json;
  concept : json;
  source_games : SourceGames;
  generated_at : pystr
}.

Inductive Body : Type :=
| MashupBody (response_data : MashupResult)   (* jsonify(response_data) *)
| ErrorBody (error : pystr)                   (* jsonify({'error': ...}) *)
| FlaskInternalError.    (* Flask's own 500 page, for an exception that
                            escapes the view *)

Record HttpResponse : Type := { body : Body; status : nat }.

Section Process.

Variable env : Env.

(** A replacement field [{v}] of an f-string: a [str] goes in as it is. *)
Definition format_value (v : json) : pystr :=
  match v with
  | JStr s => s
  | _ => py_str env v
  end.

Definition uuid4 : M UUID :=
  fun w =>
    (Return (UUID_of_bytes (map (os_urandom env (urandom_reads w)) (seq 0 16)) 4),
     count_urandom w).

Definition datetime_now_strftime : M pystr :=
  fun w =>
    (Return (now_strftime env (clock_reads w)), count_clock w).

Definition chat_request (prompt : pystr) : ChatRequest :=
  {| model := py "gpt-4";
     messages := [(py "system", system_content); (py "user", prompt)];
     temperature := temperature_0_85;
     max_tokens := 2500 |}.

Definition create_game_mashup (game1_data game2_data : json) : M json :=
  match client env with
  | None =>
    ret (JStr (py "OpenAI client is not initialized. Please check your API key and environment variables."))
  | Some c =>
    let prompt :=
      prompt_template (format_value game1_data) (format_value game2_data) in
    do response <- chat_completions_create c (chat_request prompt);
    (* response.choices[0].message.content *)
    match choices response with
    | [] => raise (PyExc IndexError (py "list index out of range"))
    | choice :: _ =>
      ret (match content (message choice) with
           | Some text => JStr text
           | None => JNull
           end)
    end
  end.

(** The validation loop: [if field not in data or not data[field]: raise]. *)
Fixpoint check_required (data : json) (fields : list pystr) : outcome unit :=
  match fields with
  | [] => Return tt
  | field :: rest =>
    obind (py_in field data) (fun present =>
    obind (if negb present then Return true
           else obind (getitem data field) (fun v => Return (negb (truthy v))))
          (fun missing =>
    if missing then
      Raise (PyExc ValueError (py "Missing required field: " ++ field))
    else check_required data rest))
  end.

Definition process_game_mashup (data : json) : M MashupResult :=
  run lift (check_required data required_fields);
  do mashup_name <- lift (getitem data (py "mashup_name"));
  do game1_data <- lift (getitem data (py "game1_data"));
  do game2_data <- lift (getitem data (py "game2_data"));
  run print (py "Creating mashup concept: " ++ format_value mashup_name ++ py "...");
  do mashup_concept <- create_game_mashup game1_data game2_data;
  do u <- uuid4;
  let report_id := take 8 (UUID_str u) in
  do game1 <- lift (excerpt game1_data);
  do game2 <- lift (excerpt game2_data);
  do generated_at <- datetime_now_strftime;
  ret {| success := true;
         message_text := py "Game mashup created successfully!";
         report_id := report_id;
         mashup_name := mashup_name;
         concept := mashup_concept;
         source_games := {| game1 := game1; game2 := game2 |};
         generated_at := generated_at |}.

(** The handler.  [request_json] is what evaluating [request.json] gives:
    the parsed body, or the exception Flask raises for a body it cannot
    parse.  The [print] of the second [except] clause can itself raise; that
    exception leaves the view, and Flask answers it with its own 500 page. *)
Definition api_create_mashup (request_json : outcome json)
  : World -> HttpResponse * World :=
  fun w =>
    let try_block : M HttpResponse :=
      do data <- lift request_json;
      match data with
      | JNull =>
        ret {| body := ErrorBody (py "No JSON data provided"); status := 400 |}
      | _ =>
        do response_data <- process_game_mashup data;
        ret {| body := MashupBody response_data; status := 200 |}
      end in
    match try_block w with
    | (Return response, w') => (response, w')
    | (Raise e, w') =>
      if isinstance_ValueError e then
        ({| body := ErrorBody (exc_str e); status := 400 |}, w')
      else
        match print (py "❌ Error in API: " ++ exc_str e) w' with
        | (Return _, w'') => ({| body := ErrorBody (exc_str e); status := 500 |}, w'')
        | (Raise _, w'') => ({| body := FlaskInternalError; status := 500 |}, w'')
        end
    end.

End Process.

(* ===================================================================== *)
(** * Example environments and payloads *)
(* ===================================================================== *)

(** A client that answers every request with one choice holding [text], as
    a test double would. *)
Definition mock_client (text : pystr) : OpenAI :=
  fun _ _ => Return {| choices := [ {| message := {| content := Some text |} |} ] |}.

(** A client whose every call raises [e]. *)
Definition raising_client (e : pyexc) : OpenAI :=
  fun _ _ => Raise e.

Definition example_urandom (k i : nat) : Byte.byte :=
  match Byte.of_N (N.of_nat (k * 16 + i) * 37 mod 256) with
  | Some b => b
  | None => Byte.x00
  end.

(** [str(v)] on the values the examples format: exact on [None], [bool] and
    [int]; the other cases are never rendered below and get a placeholder. *)
Definition example_py_str (v : json) : pystr :=
  match v with
  | JNull => py "None"
  | JBool true => py "True"
  | JBool false => py "False"
  | JInt z => py (NilZero.string_of_int (Z.to_int z))
  | JStr s => s
  | JFloat _ | JArr _ | JObj _ => py "..."
  end.

Definition example_env (c : option OpenAI) : Env :=
  {| client := c;
     os_urandom := example_urandom;
     now_strftime := fun _ => py "January 05, 2025 at 09:30 AM";
     py_str := example_py_str |}.

Definition fresh_world : World :=
  {| chat_calls := []; urandom_reads := 0; clock_reads := 0; stdout := [] |}.

(** [{"mashup_name": name, "game1_data": g1, "game2_data": g2}] *)
Definition payload_fields (name g1 g2 : json) : gmap pystr json :=
  <[py "mashup_name" := name]>
    (<[py "game1_data" := g1]> (<[py "game2_data" := g2]> ∅)).

Definition payload (name g1 g2 : json) : json :=
  JObj (payload_fields name g1 g2).

(* ===================================================================== *)
(** * The vocabulary of the specification *)
(* ===================================================================== *)

(** A required field is missing from an object payload when its key is
    absent or its value is falsy. *)
Definition field_missing (d : gmap pystr json) (field : pystr) : bool :=
  match d !! field with
  | None => true
  | Some v => negb (truthy v)
  end.

(** The first missing field in the check order. *)
Definition first_missing (d : gmap pystr json) : option pystr :=
  List.find (field_missing d) required_fields.

Definition missing_field_error (field : pystr) : pyexc :=
  PyExc ValueError (py "Missing required field: " ++ field).

Definition validation_passes (data : json) : Prop :=
  check_required data required_fields = Return tt.

(** The request [create_game_mashup] sends for a payload, and what the
    configured client answers to it in world [w]; [None] when there is no
    client or the payload has no descriptions to send. *)
Definition request_for (env : Env) (data : json) : option ChatRequest :=
  match getitem data (py "game1_data"), getitem data (py "game2_data") with
  | Return g1, Return g2 =>
    Some (chat_request (prompt_template (format_value env g1) (format_value env g2)))
  | _, _ => None
  end.

Definition completion_for (env : Env) (data : json) (w : World)
  : option (outcome ChatCompletion) :=
  match client env, request_for env data with
  | Some c, Some req => Some (c (length (chat_calls w)) req)
  | _, _ => None
  end.





(** The line [process_game_mashup] prints before the completion call. *)
Definition progress_line (env : Env) (name : json) : pystr :=
  py "Creating mashup concept: " ++ format_value env name ++ py "...".

(** The identifier drawn in world [w]. *)
Definition report_id_in (env : Env) (w : World) : pystr :=
  take 8 (UUID_str (UUID_of_bytes (map (os_urandom env (urandom_reads w)) (seq 0 16)) 4)).

(** The dictionary [process_game_mashup] returns, from its parts. *)
Definition mashup_result (env : Env) (w : World) (name concept e1 e2 : json)
  : MashupResult :=
  {| success := true;
     message_text := py "Game mashup created successfully!";
     report_id := report_id_in env w;
     mashup_name := name;
     concept := concept;
     source_games := {| game1 := e1; game2 := e2 |};
     generated_at := now_strftime env (clock_reads w) |}.

(** The specification's reading of non-string values, at its weakest: a
    payload with a non-string value in a required field does not pass
    validation. *)
Definition non_strings_rejected : Prop :=
  forall (d : gmap pystr json) (f : pystr) (v : json),
    In f required_fields -> d !! f = Some v -> is_str v = false ->
    ~ validation_passes (JObj d).



(** The section headings of the prompt, as the template writes them, and
    the names the specification gives them. *)
Definition section_headings : list pystr :=
  [py "## 🎮 Game Title";
   py "## 🎯 Genre & Core Concept";
   py "## ⚡ Unique Selling Points";
   py "## 🔄 Core Game Loop";
   py "## 🎨 Key Mechanics Fusion";
   py "## 👥 Target Audience";
   py "## 💰 Monetization Strategy";
   py "## 🚀 Marketing Hooks"].

Definition section_names : list pystr :=
  [py "Title";
   py "Genre & Core Concept";
   py "Unique Selling Points";
   py "Core Game Loop";
   py "Key Mechanics Fusion";
   py "Target Audience";
   py "Monetization Strategy";
   py "Marketing Hooks"].

(** The line printed before the client call can be encoded: the text of the
    project name holds no lone surrogate. *)
Definition progress_printable (env : Env) (data : json) : Prop :=
  exists n, getitem data (py "mashup_name") = Return n /\
            has_surrogate (progress_line env n) = false.

(** A field is missing from a payload of any type: a payload that is not
    an object has no fields. *)
Definition payload_field_missing (data : json) (field : pystr) : bool :=
  match data with
  | JObj d => field_missing d field
  | _ => true
  end.

(** The specification's reading of missing fields, at its weakest: a
    payload with a missing required field is rejected with the error that
    names a required field, leaving the world as it was. *)
Definition missing_field_always_named (env : Env) (data : json) (w : World) : Prop :=
  (exists f, In f required_fields /\ payload_field_missing data f = true) ->
  exists f, In f required_fields /\
            process_game_mashup env data w = (Raise (missing_field_error f), w).

(** The values Python holds to be false. *)
Definition falsy_value (v : json) : Prop :=
  v = JNull \/ v = JBool false \/ v = JInt 0 \/
  (exists sign, v = JFloat (S754_zero sign)) \/
  v = JStr [] \/ v = JArr [] \/ v = JObj ∅.

(* ===================================================================== *)
(** * Start-up and the status endpoints *)
(* ===================================================================== *)

(** [os.environ] maps names to strings; [os.environ.get(k)] is [None] for a
    name that is not set. *)

(** [a or b] on two such lookups: [a] when it is a non-empty string. *)
Definition py_or (a b : option pystr) : option pystr :=
  match a with
  | Some (_ :: _) => a
  | _ => b
  end.

(** [bool(v)] for [v] a string or [None]. *)
Definition str_truthy (v : option pystr) : bool :=
  match v with
  | Some (_ :: _) => true
  | _ => false
  end.

(** The module-level [try] block that sets [client]: the key is looked up
    under three names, [OpenAI(api_key=...)] is called with it, and an
    exception of the block leaves [client = None].  [new_OpenAI] is the
    constructor of the OpenAI library.  The [print] of the [except] clause
    comes before [client = None] and can itself raise: the import of the
    module is then aborted. *)
Definition initialize_client (new_OpenAI : pystr -> outcome OpenAI)
    (environ : gmap pystr pystr) : M (option OpenAI) :=
  fun w =>
    let try_block : M OpenAI :=
      let api_key :=
        py_or (py_or (environ !! py "OPENAI_KEY") (environ !! py "OPENAI_API_KEY"))
              (environ !! py "OPENAI_TOKEN") in
      do client <- lift
          match api_key with
          | Some (c :: s) => new_OpenAI (c :: s)
          | _ => Raise (PyExc ValueError
                          (py "OpenAI API key not found in environment variables"))
          end;
      run print (py "✅ OpenAI client initialized successfully");
      ret client in
    match try_block w with
    | (Return client, w') => (Return (Some client), w')
    | (Raise e, w') =>
      match print (py "❌ Failed to initialize OpenAI client: " ++ exc_str e) w' with
      | (Return _, w'') => (Return None, w'')
      | (Raise e', w'') => (Raise e', w'')
      end
    end.

(** The process environment after start-up: [client] is what the block
    above has set.  (When that block raises there is no process to speak
    of; [client] is then given as [None].) *)
Definition started (new_OpenAI : pystr -> outcome OpenAI) (environ : gmap pystr pystr)
    (urandom : nat -> nat -> Byte.byte) (strftime : nat -> pystr)
    (str_of : json -> pystr) : Env :=
  {| client := match (initialize_client new_OpenAI environ fresh_world).1 with
               | Return client => client
               | Raise _ => None
               end;
     os_urandom := urandom;
     now_strftime := strftime;
     py_str := str_of |}.

(** [bool(client)]: an [OpenAI] object is truthy, [None] is not. *)
Definition bool_client (env : Env) : bool :=
  match client env with
  | Some _ => true
  | None => false
  end.

Record EnvironmentCheck : Type := { openai_key_set : bool; client_ready : bool }.

Record HomeResponse : Type := {
  home_message : pystr;
  home_status : pystr;
  home_endpoints : list (pystr * pystr);
  environment_check : EnvironmentCheck
}.

Definition home (env : Env) (environ : gmap pystr pystr) : HomeResponse :=
  let openai_key := py_or (environ !! py "OPENAI_KEY") (environ !! py "OPENAI_API_KEY") in
  {| home_message := py "Game Mashup Creator API is running!";
     home_status := py "healthy";
     home_endpoints :=
       [(py "health", py "/api/health");
        (py "mashup", py "/api/create-mashup (POST)");
        (py "test", py "/api/test (POST)");
        (py "demo", py "/use (GET - Web Interface)")];
     environment_check :=
       {| openai_key_set := str_truthy openai_key;
          client_ready := bool_client env |} |}.

Record HealthResponse : Type := {
  health_status : pystr;
  timestamp : pystr;
  service : pystr;
  openai_configured : bool
}.

(** [now_isoformat k] is [datetime.now().isoformat()] at the [k]-th read of
    the clock. *)
Definition health_check (env : Env) (now_isoformat : nat -> pystr)
  : World -> HealthResponse * World :=
  fun w =>
    ({| health_status := py "healthy";
        timestamp := now_isoformat (clock_reads w);
        service := py "Game Mashup Creator";
        openai_configured := bool_client env |},
     count_clock w).

(* ===================================================================== *)
(** * The test endpoint *)
(* ===================================================================== *)

Definition sample_game1 : pystr :=
  py "
        Tetris - A classic puzzle game where players arrange falling geometric blocks (tetrominoes) to complete horizontal lines. The game speeds up as you progress, requiring quick thinking and spatial reasoning. Simple controls, addictive gameplay, and endless replayability have made it one of the most popular games of all time.
        ".

Definition sample_game2 : pystr :=
  py "
        Dark Souls - A challenging action RPG known for its punishing difficulty, intricate level design, and atmospheric world. Players explore interconnected environments, fight formidable enemies, and learn from repeated deaths. Features stamina-based combat, character progression through souls currency, and environmental storytelling.
        ".

Definition sample_data : json :=
  payload (JStr (py "TestMash Concept")) (JStr sample_game1) (JStr sample_game2).

Definition test_endpoint (env : Env) : World -> HttpResponse * World :=
  fun w =>
    let try_block : M HttpResponse :=
      run print (py "🧪 Running test with sample mashup data...");
      do response_data <- process_game_mashup env sample_data;
      ret {| body := MashupBody response_data; status := 200 |} in
    match try_block w with
    | (Return response, w') => (response, w')
    | (Raise e, w') =>
      if isinstance_ValueError e then
        ({| body := ErrorBody (exc_str e); status := 400 |}, w')
      else
        match print (py "❌ Error in test endpoint: " ++ exc_str e) w' with
        | (Return _, w'') => ({| body := ErrorBody (exc_str e); status := 500 |}, w'')
        | (Raise _, w'') => ({| body := FlaskInternalError; status := 500 |}, w'')
        end
    end.

(* ===================================================================== *)
(** * The demo page's script *)
(* ===================================================================== *)

(** The page served by [use_page] carries the script that posts the form.
    A JavaScript string is a sequence of UTF-16 code units: [length] counts
    units. *)
Abbreviation jsstr := (list N) (only parsing).

Definition utf16_units (c : N) : jsstr :=
  if c <? 0x10000 then [c]
  else [0xD800 + (c - 0x10000) / 0x400; 0xDC00 + (c - 0x10000) mod 0x400].

(** A literal of the script. *)
Definition js (s : string) : jsstr := flat_map utf16_units (py s).

(** White space and line terminators, as [String.prototype.trim] strips
    them. *)
Definition js_whitespace (u : N) : bool :=
  ((0x09 <=? u) && (u <=? 0x0D)) || (u =? 0x20) || (u =? 0xA0) || (u =? 0x1680)
  || ((0x2000 <=? u) && (u <=? 0x200A)) || (u =? 0x2028) || (u =? 0x2029)
  || (u =? 0x202F) || (u =? 0x205F) || (u =? 0x3000) || (u =? 0xFEFF).

Fixpoint trim_start (s : jsstr) : jsstr :=
  match s with
  | [] => []
  | u :: s' => if js_whitespace u then trim_start s' else s
  end.

Definition trim (s : jsstr) : jsstr := rev (trim_start (rev (trim_start s))).

(** What [createMashup] does up to its [await]. *)
Inductive ui_action : Type :=
| ConsoleLog (text : jsstr)
| ConsoleLogFormData (mashupName game1 game2 : jsstr)
| ShowInfo (message : jsstr)          (* showInfo(message) *)
| ButtonBusy                          (* disabled, relabelled *)
| ShowLoading                         (* showLoading() *)
| Fetch (url : jsstr) (mashup_name game1_data game2_data : jsstr).
                                      (* POST of JSON.stringify({...}) *)

(** [createMashup], from the values of the three form fields to the actions
    it takes before waiting for the response; [button] tells whether
    [document.querySelector('.btn')] finds the button. *)
Definition createMashup (apiUrl : jsstr) (button : bool)
    (mashupName_value game1Data_value game2Data_value : jsstr) : list ui_action :=
  let mashupName := trim mashupName_value in
  let game1Data := trim game1Data_value in
  let game2Data := trim game2Data_value in
  [ConsoleLog (js "🔄 createMashup called");
   ConsoleLogFormData mashupName (take 50 game1Data ++ js "...")
                      (take 50 game2Data ++ js "...")] ++
  match mashupName with
  | [] => [ShowInfo (js "🏷️ Please enter a name for your mashup project!")]
  | _ :: _ =>
    match game1Data with
    | [] => [ShowInfo (js "🎮 Please describe the first game you want to mashup!")]
    | _ :: _ =>
      match game2Data with
      | [] => [ShowInfo (js "🎮 Please describe the second game you want to mashup!")]
      | _ :: _ =>
        if (length game1Data <? 50)%nat || (length game2Data <? 50)%nat then
          [ShowInfo (js "📝 Please provide more detailed descriptions for both games (at least a few sentences each)!")]
        else
          (if button then [ButtonBusy] else []) ++
          [ShowLoading;
           Fetch (apiUrl ++ js "/api/create-mashup") mashupName game1Data game2Data]
      end
    end
  end.

(** The body of such a request as the server parses it: [JSON.stringify]
    escapes lone surrogates, [json.loads] joins surrogate pairs into one
    code point and keeps lone ones. *)
Fixpoint utf16_decode (us : jsstr) : pystr :=
  match us with
  | [] => []
  | hi :: rest =>
    match rest with
    | lo :: rest' =>
      if ((0xD800 <=? hi) && (hi <=? 0xDBFF)) && ((0xDC00 <=? lo) && (lo <=? 0xDFFF)) then
        0x10000 + (hi - 0xD800) * 0x400 + (lo - 0xDC00) :: utf16_decode rest'
      else hi :: utf16_decode rest
    | [] => [hi]
    end
  end.

Definition posted_json (mashup_name game1_data game2_data : jsstr) : json :=
  payload (JStr (utf16_decode mashup_name)) (JStr (utf16_decode game1_data))
          (JStr (utf16_decode game2_data)).

(** Two worlds that differ at most in what has been printed. *)
Definition same_io (w1 w2 : World) : Prop :=
  chat_calls w1 = chat_calls w2 /\ urandom_reads w1 = urandom_reads w2 /\
  clock_reads w1 = clock_reads w2.

(** World [w'] has at most one more client call, one more read of the
    random source and one more read of the clock than [w]. *)
Definition at_most_one_more (w w' : World) : Prop :=
  (chat_calls w' = chat_calls w \/ exists req, chat_calls w' = chat_calls w ++ [req]) /\
  (urandom_reads w' = urandom_reads w \/ urandom_reads w' = S (urandom_reads w)) /\
  (clock_reads w' = clock_reads w \/ clock_reads w' = S (clock_reads w)).

(** The first value of a list of lookups that is a non-empty string. *)
Fixpoint first_nonempty (vs : list (option pystr)) : option pystr :=
  match vs with
  | [] => None
  | Some (c :: s) :: _ => Some (c :: s)
  | _ :: vs' => first_nonempty vs'
  end.

Definition is_fetch (a : ui_action) : bool :=
  match a with
  | Fetch _ _ _ _ => true
  | _ => false
  end.

(* ===================================================================== *)
(** * Properties *)
(* ===================================================================== *)

Arguments py : simpl never.

(** ** Printing *)

Lemma has_surrogate_app (a b : pystr) :
  has_surrogate (a ++ b) = has_surrogate a || has_surrogate b.
Proof. apply existsb_app. Qed.

Lemma print_ok (line : pystr) (w : World) :
  has_surrogate line = false -> print line w = (Return tt, log_line line w).
Proof. intros H. unfold print. now rewrite H. Qed.

Lemma print_raises (line : pystr) (w : World) :
  has_surrogate line = true -> print line w = (Raise (unicode_encode_error line), w).
Proof. intros H. unfold print. now rewrite H. Qed.

(** ** Validation *)

Lemma truthy_false_iff (v : json) : truthy v = false <-> falsy_value v.
Proof.
  unfold falsy_value. split.
  - destruct v as [ | b | z | f | s | l | m]; simpl; intros H.
    + auto.
    + subst b. auto.
    + apply negb_false_iff, Z.eqb_eq in H. subst z. auto 10.
    + destruct f; try discriminate. right. right. right. left. eauto.
    + apply negb_false_iff, bool_decide_eq_true in H. subst s. auto 10.
    + destruct l; [auto 10 | discriminate].
    + apply negb_false_iff, bool_decide_eq_true in H. subst m. auto 10.
  - intros [-> | [-> | [-> | [[sg ->] | [-> | [-> | ->]]]]]]; reflexivity.
Qed.

Lemma check_required_obj (d : gmap pystr json) (fields : list pystr) :
  check_required (JObj d) fields =
  match List.find (field_missing d) fields with
  | Some f => Raise (missing_field_error f)
  | None => Return tt
  end.
Proof.
  induction fields as [ | f rest IH]; [reflexivity | ].
  simpl. unfold field_missing at 1.
  destruct (d !! f) as [v | ] eqn:Hf.
  - rewrite bool_decide_eq_true_2 by eauto. simpl.
    destruct (truthy v); simpl; [exact IH | reflexivity].
  - rewrite bool_decide_eq_false_2 by (intros [x Hx]; discriminate). reflexivity.
Qed.

(** Only an object passes validation: a list or a string that holds the
    field name fails at [data[field]], any other value at [field in data]. *)
Lemma check_required_pass_obj (data : json) (f : pystr) (rest : list pystr) :
  check_required data (f :: rest) = Return tt -> exists d, data = JObj d.
Proof.
  destruct data as [ | b | z | x | s | l | m]; simpl; try discriminate.
  - destruct (str_contains s f); simpl; discriminate.
  - destruct (existsb _ l); simpl; discriminate.
  - eauto.
Qed.

Lemma validation_passes_iff (data : json) :
  validation_passes data <->
  exists d, data = JObj d /\
    forall f, In f required_fields -> exists v, d !! f = Some v /\ truthy v = true.
Proof.
  unfold validation_passes. split.
  - intros H. destruct (check_required_pass_obj _ _ _ H) as [d ->].
    exists d. split; [reflexivity | ].
    rewrite check_required_obj in H.
    destruct (List.find (field_missing d) required_fields) eqn:Hfind; [discriminate | ].
    intros f Hin.
    pose proof (find_none _ _ Hfind f Hin) as Hm. unfold field_missing in Hm.
    destruct (d !! f) as [v | ]; [ | discriminate].
    exists v. split; [reflexivity | ]. now apply negb_false_iff in Hm.
  - intros [d [-> Hall]]. rewrite check_required_obj.
    destruct (List.find (field_missing d) required_fields) as [f | ] eqn:Hfind; [ | reflexivity].
    apply find_some in Hfind as [Hin Hm].
    destruct (Hall f Hin) as [v [Hv Ht]].
    unfold field_missing in Hm. rewrite Hv, Ht in Hm. discriminate.
Qed.

(** ** The orchestration, step by step *)

(** On an object whose three fields are present and truthy, the function
    prints, calls [create_game_mashup], draws the identifier, cuts the two
    excerpts and reads the clock, in this order. *)
Lemma process_valid (env : Env) (d : gmap pystr json) (n g1 g2 : json) (w : World) :
  d !! py "mashup_name" = Some n -> d !! py "game1_data" = Some g1 ->
  d !! py "game2_data" = Some g2 ->
  truthy n = true -> truthy g1 = true -> truthy g2 = true ->
  process_game_mashup env (JObj d) w =
  if has_surrogate (progress_line env n) then
    (Raise (unicode_encode_error (progress_line env n)), w)
  else
    match create_game_mashup env g1 g2 (log_line (progress_line env n) w) with
    | (Raise e, w1) => (Raise e, w1)
    | (Return text, w1) =>
      match excerpt g1 with
      | Raise e => (Raise e, count_urandom w1)
      | Return e1 =>
        match excerpt g2 with
        | Raise e => (Raise e, count_urandom w1)
        | Return e2 =>
          (Return (mashup_result env w1 n text e1 e2), count_clock (count_urandom w1))
        end
      end
    end.
Proof.
  intros Hn H1 H2 Tn T1 T2.
  unfold process_game_mashup, bind, lift.
  rewrite check_required_obj. unfold required_fields. simpl List.find.
  unfold field_missing. rewrite Hn, H1, H2, Tn, T1, T2.
  cbn [negb]. cbv iota. unfold getitem. rewrite Hn, H1, H2.
  unfold print, progress_line. cbv beta iota.
  destruct (has_surrogate _); [reflexivity | ].
  destruct (create_game_mashup env g1 g2 _) as [[text | e] w1]; [ | reflexivity].
  unfold uuid4, datetime_now_strftime, ret, mashup_result, report_id_in.
  destruct (excerpt g1) as [e1 | e]; [ | reflexivity].
  destruct (excerpt g2) as [e2 | e]; reflexivity.
Qed.

(** A payload that fails validation leaves the world as it was. *)
Lemma process_invalid (env : Env) (data : json) (e : pyexc) (w : World) :
  check_required data required_fields = Raise e ->
  process_game_mashup env data w = (Raise e, w).
Proof.
  intros H. unfold process_game_mashup, bind, lift. now rewrite H.
Qed.

Lemma create_unconfigured (env : Env) (g1 g2 : json) (w : World) :
  client env = None ->
  create_game_mashup env g1 g2 w =
  (Return (JStr (py "OpenAI client is not initialized. Please check your API key and environment variables.")), w).
Proof. intros H. unfold create_game_mashup. now rewrite H. Qed.

Lemma create_configured (env : Env) (c : OpenAI) (g1 g2 : json) (w : World) :
  client env = Some c ->
  let req := chat_request (prompt_template (format_value env g1) (format_value env g2)) in
  create_game_mashup env g1 g2 w =
  match c (length (chat_calls w)) req with
  | Raise e => (Raise e, log_call req w)
  | Return resp =>
    match choices resp with
    | [] => (Raise (PyExc IndexError (py "list index out of range")), log_call req w)
    | choice :: _ =>
      (Return (match content (message choice) with
               | Some text => JStr text
               | None => JNull
               end), log_call req w)
    end
  end.
Proof.
  intros H req. unfold create_game_mashup. rewrite H.
  unfold bind, chat_completions_create. fold req.
  destruct (c _ req) as [resp | e]; [ | reflexivity].
  destruct (choices resp); reflexivity.
Qed.

(** ** Validation order and short-circuit *)

Lemma first_missing_order (d : gmap pystr json) :
  first_missing d =
  if field_missing d (py "mashup_name") then Some (py "mashup_name")
  else if field_missing d (py "game1_data") then Some (py "game1_data")
  else if field_missing d (py "game2_data") then Some (py "game2_data")
  else None.
Proof. reflexivity. Qed.

(** An absent key, [null] and the empty string all count as missing. *)
Lemma field_missing_spec (d : gmap pystr json) (f : pystr) :
  d !! f = None \/ d !! f = Some JNull \/ d !! f = Some (JStr []) ->
  field_missing d f = true.
Proof.
  unfold field_missing. intros [-> | [-> | ->]]; reflexivity.
Qed.

(** C3, as the code has it: a payload that is a JSON object with a missing
    or empty required field is rejected with the [ValueError] that names
    the first such field in the order mashup_name, game1_data, game2_data;
    the handler answers 400 with that message; the world is left untouched,
    so the client was not called. *)
Theorem missing_field_rejected (env : Env) (d : gmap pystr json) (w : World) :
  field_missing d (py "mashup_name") = true \/
  field_missing d (py "game1_data") = true \/
  field_missing d (py "game2_data") = true ->
  let first :=
    if field_missing d (py "mashup_name") then py "mashup_name"
    else if field_missing d (py "game1_data") then py "game1_data"
    else py "game2_data" in
  process_game_mashup env (JObj d) w = (Raise (missing_field_error first), w) /\
  api_create_mashup env (Return (JObj d)) w =
    ({| body := ErrorBody (py "Missing required field: " ++ first); status := 400 |}, w) /\
  chat_calls (process_game_mashup env (JObj d) w).2 = chat_calls w.
Proof.
  intros Hmiss first.
  assert (Hcheck : check_required (JObj d) required_fields
                   = Raise (missing_field_error first)).
  { rewrite check_required_obj. fold (first_missing d).
    rewrite first_missing_order. subst first.
    destruct (field_missing d (py "mashup_name")); [reflexivity | ].
    destruct (field_missing d (py "game1_data")); [reflexivity | ].
    destruct (field_missing d (py "game2_data")); [reflexivity | ].
    destruct Hmiss as [H | [H | H]]; discriminate. }
  pose proof (process_invalid env _ _ w Hcheck) as Hproc.
  split; [exact Hproc | ]. split.
  - unfold api_create_mashup, bind, lift. rewrite Hproc. reflexivity.
  - now rewrite Hproc.
Qed.

Lemma missing_field_rejected_witness :
  field_missing (payload_fields (JStr []) (JStr (py "x")) (JStr (py "y")))
    (py "mashup_name") = true /\
  process_game_mashup (example_env (Some (mock_client (py "MOCK"))))
    (payload (JStr []) (JStr (py "x")) (JStr (py "y"))) fresh_world
  = (Raise (missing_field_error (py "mashup_name")), fresh_world).
Proof.
  assert (H : field_missing (payload_fields (JStr []) (JStr (py "x")) (JStr (py "y")))
                (py "mashup_name") = true) by (vm_compute; reflexivity).
  split; [exact H | ].
  destruct (missing_field_rejected (example_env (Some (mock_client (py "MOCK"))))
              (payload_fields (JStr []) (JStr (py "x")) (JStr (py "y")))
              fresh_world (or_introl H)) as [Hp _].
  rewrite H in Hp. exact Hp.
Defined.

(** A number as the payload has none of the required fields, and is
    rejected with a [TypeError], not with the error naming a field. *)
Lemma number_payload_not_named :
  ~ missing_field_always_named (example_env (Some (mock_client (py "MOCK"))))
      (JInt 5) fresh_world.
Proof.
  intros Hclaim.
  destruct Hclaim as [f [_ Hrun]].
  { exists (py "mashup_name"). split; [now left | reflexivity]. }
  assert (Hreal :
    process_game_mashup (example_env (Some (mock_client (py "MOCK")))) (JInt 5) fresh_world
    = (Raise (PyExc TypeError (py "argument of type 'int' is not iterable")), fresh_world))
    by (vm_compute; reflexivity).
  rewrite Hreal in Hrun. unfold missing_field_error in Hrun. congruence.
Qed.

(** ** What counts as missing *)

Lemma check_one_field (d : gmap pystr json) (f : pystr) :
  check_required (JObj d) [f] =
  if field_missing d f then Raise (missing_field_error f) else Return tt.
Proof.
  rewrite check_required_obj. simpl. destruct (field_missing d f); reflexivity.
Qed.

(** C4, as the code has it: the check of one required field raises the
    error naming it exactly when the key is absent or its value is falsy
    (null, false, 0, 0.0, empty string, list or object), and passes exactly
    when the key holds any other value, string or not. *)
Theorem missing_iff_absent_or_falsy (d : gmap pystr json) (f : pystr) :
  (check_required (JObj d) [f] = Raise (missing_field_error f) <->
   d !! f = None \/ exists v, d !! f = Some v /\ falsy_value v) /\
  (check_required (JObj d) [f] = Return tt <->
   exists v, d !! f = Some v /\ ~ falsy_value v).
Proof.
  rewrite check_one_field. unfold field_missing.
  destruct (d !! f) as [v | ] eqn:Hf.
  - destruct (truthy v) eqn:Ht; simpl.
    + assert (Hnf : ~ falsy_value v).
      { intros Hv. apply truthy_false_iff in Hv. congruence. }
      split; split.
      * discriminate.
      * intros [H | [v' [Hv' Hfv]]]; [discriminate | ]. congruence.
      * intros _. eauto.
      * reflexivity.
    + assert (Hfv : falsy_value v) by now apply truthy_false_iff.
      split; split.
      * intros _. right. eauto.
      * reflexivity.
      * discriminate.
      * intros [v' [Hv' Hnf]]. congruence.
  - simpl. split; split.
    + auto.
    + reflexivity.
    + discriminate.
    + intros [v' [Hv' _]]. discriminate.
Qed.

(** A number in place of the project name passes validation. *)
Lemma non_string_value_accepted :
  validation_passes (payload (JInt 5) (JStr (py "x")) (JStr (py "y"))) /\
  ~ non_strings_rejected.
Proof.
  assert (Hpass : validation_passes (payload (JInt 5) (JStr (py "x")) (JStr (py "y"))))
    by (vm_compute; reflexivity).
  split; [exact Hpass | ].
  intros Hclaim.
  apply (Hclaim (payload_fields (JInt 5) (JStr (py "x")) (JStr (py "y")))
           (py "mashup_name") (JInt 5)).
  - left. reflexivity.
  - vm_compute. reflexivity.
  - reflexivity.
  - exact Hpass.
Qed.

(** ** The empty body *)

(** C10: when [request.json] is [None] the handler answers 400 with the
    fixed message and leaves the world untouched: nothing was printed and
    the client was not called.  Validation did not run either: on [None]
    it would have raised a [TypeError], which the handler reports as 500. *)
Theorem no_json_rejected (env : Env) (w : World) :
  api_create_mashup env (Return JNull) w =
    ({| body := ErrorBody (py "No JSON data provided"); status := 400 |}, w) /\
  (exists e, process_game_mashup env JNull w = (Raise e, w) /\
             isinstance_ValueError e = false).
Proof.
  split; [reflexivity | ].
  eexists. split.
  - apply process_invalid. reflexivity.
  - reflexivity.
Qed.

(** ** Excerpts *)


(** ** Successful calls *)

Lemma create_keeps_counters (env : Env) (g1 g2 : json) (w : World) :
  let w1 := (create_game_mashup env g1 g2 w).2 in
  urandom_reads w1 = urandom_reads w /\ clock_reads w1 = clock_reads w /\
  stdout w1 = stdout w.
Proof.
  destruct (client env) as [c | ] eqn:Hc.
  - rewrite (create_configured env c g1 g2 w Hc).
    destruct (c _ _) as [resp | e]; [ | now cbn].
    destruct (choices resp); now cbn.
  - rewrite (create_unconfigured env g1 g2 w Hc). now cbn.
Qed.

(** Every returned result comes from an object payload with three truthy
    fields, a returned [create_game_mashup] and two computed excerpts. *)
Lemma process_returns_inv (env : Env) (data : json) (w w' : World) (r : MashupResult) :
  process_game_mashup env data w = (Return r, w') ->
  exists d n g1 g2 text w1 e1 e2,
    data = JObj d /\
    d !! py "mashup_name" = Some n /\ d !! py "game1_data" = Some g1 /\
    d !! py "game2_data" = Some g2 /\
    truthy n = true /\ truthy g1 = true /\ truthy g2 = true /\
    create_game_mashup env g1 g2 (log_line (progress_line env n) w) = (Return text, w1) /\
    excerpt g1 = Return e1 /\ excerpt g2 = Return e2 /\
    r = mashup_result env w1 n text e1 e2 /\
    w' = count_clock (count_urandom w1).
Proof.
  intros Hrun.
  destruct (check_required data required_fields) as [[] | e] eqn:Hcheck.
  - apply validation_passes_iff in Hcheck as [d [-> Hall]].
    destruct (Hall (py "mashup_name")) as [n [Hn Tn]]; [now left | ].
    destruct (Hall (py "game1_data")) as [g1 [H1 T1]]; [right; now left | ].
    destruct (Hall (py "game2_data")) as [g2 [H2 T2]]; [right; right; now left | ].
    rewrite (process_valid env d n g1 g2 w Hn H1 H2 Tn T1 T2) in Hrun.
    destruct (has_surrogate (progress_line env n)); [discriminate | ].
    destruct (create_game_mashup env g1 g2 _) as [[text | e] w1] eqn:Hcreate;
      [ | discriminate].
    destruct (excerpt g1) as [e1 | e] eqn:He1; [ | discriminate].
    destruct (excerpt g2) as [e2 | e] eqn:He2; [ | discriminate].
    injection Hrun as <- <-.
    exists d, n, g1, g2, text, w1, e1, e2. repeat split; assumption || reflexivity.
  - rewrite (process_invalid env data e w Hcheck) in Hrun. discriminate.
Qed.





(** ** The tracking identifier *)

Lemma hex_digit_lower (d : N) : d < 16 -> is_lower_hex (hex_digit d) = true.
Proof.
  intros Hd. unfold is_lower_hex, hex_digit.
  destruct (d <? 10) eqn:H10.
  - apply N.ltb_lt in H10.
    apply orb_true_iff. left. apply andb_true_iff.
    split; apply N.leb_le; lia.
  - apply N.ltb_ge in H10.
    apply orb_true_iff. right. apply andb_true_iff.
    split; apply N.leb_le; lia.
Qed.

Lemma hex_digits_lower (fuel : nat) :
  forall (n : N) (acc : pystr),
    Forall (fun c => is_lower_hex c = true) acc ->
    Forall (fun c => is_lower_hex c = true) (hex_digits fuel n acc).
Proof.
  induction fuel as [ | fuel IH]; intros n acc Hacc; simpl; [exact Hacc | ].
  destruct (n =? 0); [exact Hacc | ].
  apply IH. constructor; [ | exact Hacc].
  apply hex_digit_lower. apply N.mod_lt. discriminate.
Qed.

Lemma format_032x_lower (n : N) :
  Forall (fun c => is_lower_hex c = true) (format_032x n).
Proof.
  unfold format_032x. apply Forall_app. split.
  - induction (32 - length (format_x n))%nat as [ | k IH]; simpl;
      constructor; [reflexivity | exact IH].
  - unfold format_x. destruct (n =? 0).
    + repeat constructor.
    + apply hex_digits_lower. constructor.
Qed.

Lemma format_032x_length (n : N) : (32 <= length (format_032x n))%nat.
Proof.
  unfold format_032x. cbv zeta. rewrite length_app, repeat_length. lia.
Qed.

Lemma UUID_str_prefix (u : UUID) :
  take 8 (UUID_str u) = take 8 (format_032x (uuid_int u)).
Proof.
  unfold UUID_str, slice. cbv zeta. rewrite drop_0. change (8 - 0)%nat with 8%nat.
  pose proof (format_032x_length (uuid_int u)) as Hlen.
  rewrite take_app_le by (rewrite length_take; lia).
  rewrite take_take. reflexivity.
Qed.

(** The digits are those of the number: enough fuel is given, and reading
    the string back gives the number. *)
Lemma hex_digit_value_digit (d : N) : d < 16 -> hex_digit_value (hex_digit d) = d.
Proof.
  intros Hd. unfold hex_digit_value, hex_digit.
  destruct (d <? 10) eqn:H10.
  - apply N.ltb_lt in H10.
    replace (48 + d <? 58) with true by (symmetry; apply N.ltb_lt; lia). lia.
  - apply N.ltb_ge in H10.
    replace (87 + d <? 58) with false by (symmetry; apply N.ltb_ge; lia). lia.
Qed.

Lemma hex_digits_value (fuel : nat) :
  forall (n : N) (acc : pystr),
    n < 2 ^ N.of_nat fuel ->
    fold_left (fun a c => a * 16 + hex_digit_value c) (hex_digits fuel n acc) 0 =
    fold_left (fun a c => a * 16 + hex_digit_value c) acc n.
Proof.
  induction fuel as [ | fuel IH]; intros n acc Hn.
  - simpl in *. replace n with 0 by lia. reflexivity.
  - cbn [hex_digits]. destruct (n =? 0) eqn:Hz.
    + apply N.eqb_eq in Hz. now subst n.
    + apply N.eqb_neq in Hz.
      rewrite IH.
      * cbn [fold_left]. rewrite hex_digit_value_digit by (apply N.mod_lt; discriminate).
        f_equal. pose proof (N.div_mod n 16). lia.
      * rewrite Nat2N.inj_succ, N.pow_succ_r' in Hn.
        apply N.Div0.div_lt_upper_bound. lia.
Qed.

Lemma size_nat_bound (n : N) : n < 2 ^ N.of_nat (N.size_nat n).
Proof.
  destruct n as [ | p]; [reflexivity | ]. cbn [N.size_nat].
  induction p as [p IH | p IH | ]; cbn [Pos.size_nat];
    rewrite ?Nat2N.inj_succ, ?N.pow_succ_r'; lia.
Qed.

Lemma format_032x_value (n : N) : hex_value (format_032x n) = n.
Proof.
  unfold hex_value, format_032x. cbv zeta. rewrite fold_left_app.
  replace (fold_left _ (repeat 48 _) 0) with 0.
  - unfold format_x. destruct (n =? 0) eqn:Hz.
    + apply N.eqb_eq in Hz. now subst n.
    + rewrite hex_digits_value by apply size_nat_bound. reflexivity.
  - induction (32 - length (format_x n))%nat as [ | k IH]; [reflexivity | exact IH].
Qed.

(** C9: the report_id of every returned result has exactly 8 characters,
    all of them lowercase hexadecimal digits; it is the head of the string
    form of the version-4 UUID built from a 16-byte read of the random
    source, and each such call consumes one new read. *)
Theorem report_id_shape (env : Env) (data : json) (w w' : World) (r : MashupResult) :
  process_game_mashup env data w = (Return r, w') ->
  length (report_id r) = 8%nat /\
  Forall (fun c => is_lower_hex c = true) (report_id r) /\
  report_id r =
    take 8 (UUID_str (UUID_of_bytes (map (os_urandom env (urandom_reads w)) (seq 0 16)) 4)) /\
  urandom_reads w' = S (urandom_reads w).
Proof.
  intros Hrun.
  apply process_returns_inv in Hrun
    as (d & n & g1 & g2 & text & w1 & e1 & e2 & _ & _ & _ & _ & _ & _ & _ & Hcreate
        & _ & _ & -> & ->).
  pose proof (create_keeps_counters env g1 g2 (log_line (progress_line env n) w))
    as [Hreads _].
  rewrite Hcreate in Hreads. cbn in Hreads.
  cbn [report_id mashup_result urandom_reads count_clock count_urandom].
  unfold report_id_in. rewrite Hreads.
  split; [ | split; [ | split; reflexivity]].
  - rewrite UUID_str_prefix, length_take.
    pose proof (format_032x_length
                  (uuid_int (UUID_of_bytes (map (os_urandom env (urandom_reads w)) (seq 0 16)) 4))).
    lia.
  - rewrite UUID_str_prefix. apply Forall_take, format_032x_lower.
Qed.

Lemma report_id_shape_witness :
  process_game_mashup (example_env (Some (mock_client (py "MOCK"))))
    (payload (JStr (py "TestMash")) (JStr (py "x")) (JStr (py "y"))) fresh_world
  = (Return (mashup_result (example_env (Some (mock_client (py "MOCK"))))
               fresh_world (JStr (py "TestMash")) (JStr (py "MOCK"))
               (JStr (py "x")) (JStr (py "y"))),
     count_clock (count_urandom
       (log_call (chat_request (prompt_template (py "x") (py "y")))
          (log_line (py "Creating mashup concept: TestMash...") fresh_world)))) /\
  length (report_id (mashup_result (example_env (Some (mock_client (py "MOCK"))))
                       fresh_world (JStr (py "TestMash")) (JStr (py "MOCK"))
                       (JStr (py "x")) (JStr (py "y")))) = 8%nat.
Proof.
  assert (Hrun :
    process_game_mashup (example_env (Some (mock_client (py "MOCK"))))
      (payload (JStr (py "TestMash")) (JStr (py "x")) (JStr (py "y"))) fresh_world
    = (Return (mashup_result (example_env (Some (mock_client (py "MOCK"))))
                 fresh_world (JStr (py "TestMash")) (JStr (py "MOCK"))
                 (JStr (py "x")) (JStr (py "y"))),
       count_clock (count_urandom
         (log_call (chat_request (prompt_template (py "x") (py "y")))
            (log_line (py "Creating mashup concept: TestMash...") fresh_world)))))
    by (vm_compute; reflexivity).
  split; [exact Hrun | ].
  exact (proj1 (report_id_shape _ _ _ _ _ Hrun)).
Defined.

(** ** The prompt *)

Lemma startswith_spec (p : pystr) :
  forall s : pystr, startswith s p = true -> s = p ++ drop (length p) s.
Proof.
  induction p as [ | a p IH]; intros s H; [reflexivity | ].
  destruct s as [ | b s]; [discriminate | ].
  simpl in H. apply andb_true_iff in H as [Hab Hrest].
  apply N.eqb_eq in Hab. subst b. simpl. f_equal. now apply IH.
Qed.

Lemma after_first_spec (p : pystr) :
  forall s rest : pystr,
    after_first s p = Some rest -> exists pre, s = pre ++ p ++ rest.
Proof.
  induction s as [ | b s IH]; intros rest H.
  - cbn [after_first] in H. destruct (startswith [] p) eqn:Hs; [ | discriminate].
    injection H as <-. exists []. now apply startswith_spec.
  - cbn [after_first] in H. destruct (startswith (b :: s) p) eqn:Hs.
    + injection H as <-. exists []. now apply startswith_spec.
    + destruct (IH rest H) as [pre Hpre]. exists (b :: pre). simpl. now f_equal.
Qed.

Lemma occur_in_order_b_sound (hs : list pystr) :
  forall s : pystr, occur_in_order_b hs s = true -> occur_in_order hs s.
Proof.
  induction hs as [ | h hs IH]; intros s H; simpl; [exact I | ].
  simpl in H. destruct (after_first s h) as [rest | ] eqn:Hrest; [ | discriminate].
  destruct (after_first_spec h s rest Hrest) as [pre Hpre].
  exists pre, rest. split; [exact Hpre | now apply IH].
Qed.

Lemma occur_in_order_app (hs : list pystr) (x s : pystr) :
  occur_in_order hs s -> occur_in_order hs (x ++ s).
Proof.
  destruct hs as [ | h hs]; simpl; [trivial | ].
  intros [pre [post [-> Hpost]]].
  exists (x ++ pre), post. split; [now rewrite <- app_assoc | exact Hpost].
Qed.

Lemma substring_here (a p b : pystr) : substring p (a ++ p ++ b).
Proof. now exists a, b. Qed.

Lemma substring_skip (x p s : pystr) : substring p s -> substring p (x ++ s).
Proof.
  intros [pre [post ->]]. exists (x ++ pre), post. now rewrite <- app_assoc.
Qed.

(** The f-string is one fixed text around the two descriptions, which it
    holds unchanged and in this order; behind them come the eight section
    headings. *)
Lemma prompt_embeds_descriptions :
  exists head mid tail : pystr,
    forall g1 g2 : pystr,
      prompt_template g1 g2 = head ++ g1 ++ mid ++ g2 ++ tail /\
      substring g1 (prompt_template g1 g2) /\
      substring g2 (prompt_template g1 g2) /\
      occur_in_order section_headings tail /\
      occur_in_order section_headings (prompt_template g1 g2) /\
      occur_in_order section_names (prompt_template g1 g2).
Proof.
  eexists _, _, _. intros g1 g2.
  split; [unfold prompt_template; reflexivity | ].
  split; [unfold prompt_template; apply substring_here | ].
  split; [unfold prompt_template; do 2 apply substring_skip; apply substring_here | ].
  split; [apply occur_in_order_b_sound; vm_compute; reflexivity | ].
  split; unfold prompt_template; do 4 apply occur_in_order_app;
    apply occur_in_order_b_sound; vm_compute; reflexivity.
Qed.

(** What a configured client is sent: one request, holding the fixed system
    message and the prompt built from the two descriptions. *)
Lemma create_sends (env : Env) (c : OpenAI) (g1 g2 : json) (w : World) :
  client env = Some c ->
  chat_calls (create_game_mashup env g1 g2 w).2 =
  chat_calls w ++
    [chat_request (prompt_template (format_value env g1) (format_value env g2))].
Proof.
  intros Hc. rewrite (create_configured env c g1 g2 w Hc).
  destruct (c _ _) as [resp | e]; [ | reflexivity].
  destruct (choices resp); reflexivity.
Qed.

(** C6: the user-role message that [create_game_mashup] sends to the client
    for two description strings is one fixed text around the two
    descriptions, the same for all inputs; it holds both descriptions
    unchanged, as contiguous runs, and the eight section headings in the
    order Title, Genre & Core Concept, Unique Selling Points, Core Game
    Loop, Key Mechanics Fusion, Target Audience, Monetization Strategy,
    Marketing Hooks. *)
Theorem user_prompt_embeds_descriptions :
  exists head mid tail : pystr,
    occur_in_order section_headings tail /\
    forall (env : Env) (c : OpenAI) (w : World) (g1 g2 : pystr),
      client env = Some c ->
      exists (req : ChatRequest) (prompt : pystr),
        chat_calls (create_game_mashup env (JStr g1) (JStr g2) w).2
          = chat_calls w ++ [req] /\
        messages req = [(py "system", system_content); (py "user", prompt)] /\
        prompt = head ++ g1 ++ mid ++ g2 ++ tail /\
        substring g1 prompt /\
        substring g2 prompt /\
        occur_in_order section_headings prompt /\
        occur_in_order section_names prompt.
Proof.
  destruct prompt_embeds_descriptions as (head & mid & tail & Hall).
  exists head, mid, tail. split.
  - now destruct (Hall [] []) as (_ & _ & _ & Htail & _).
  - intros env c w g1 g2 Hc.
    destruct (Hall g1 g2) as (Heq & Hs1 & Hs2 & _ & Hh & Hn).
    exists (chat_request (prompt_template g1 g2)), (prompt_template g1 g2).
    rewrite (create_sends env c _ _ w Hc).
    repeat split; assumption.
Qed.

Lemma user_prompt_embeds_descriptions_witness :
  client (example_env (Some (mock_client (py "MOCK")))) = Some (mock_client (py "MOCK")) /\
  exists (req : ChatRequest) (prompt : pystr),
    chat_calls (create_game_mashup (example_env (Some (mock_client (py "MOCK"))))
                  (JStr (py "Tetris")) (JStr (py "Dark Souls")) fresh_world).2
      = chat_calls fresh_world ++ [req] /\
    messages req = [(py "system", system_content); (py "user", prompt)] /\
    substring (py "Tetris") prompt /\
    substring (py "Dark Souls") prompt /\
    occur_in_order section_names prompt.
Proof.
  split; [reflexivity | ].
  destruct user_prompt_embeds_descriptions as (head & mid & tail & _ & Hall).
  destruct (Hall (example_env (Some (mock_client (py "MOCK")))) (mock_client (py "MOCK"))
              fresh_world (py "Tetris") (py "Dark Souls") eq_refl)
    as (req & prompt & Hcalls & Hmsg & _ & Hs1 & Hs2 & _ & Hn).
  exists req, prompt. repeat split; assumption.
Defined.

(** C7: two runs of [create_game_mashup] on the same two description
    strings send the same system and user strings, whatever the
    environments, the clients' answers and the histories of the two runs. *)
Theorem prompt_deterministic (env1 env2 : Env) (c1 c2 : OpenAI) (w1 w2 : World)
    (g1 g2 : pystr) :
  client env1 = Some c1 -> client env2 = Some c2 ->
  exists req : ChatRequest,
    chat_calls (create_game_mashup env1 (JStr g1) (JStr g2) w1).2 = chat_calls w1 ++ [req] /\
    chat_calls (create_game_mashup env2 (JStr g1) (JStr g2) w2).2 = chat_calls w2 ++ [req] /\
    messages req = [(py "system", system_content); (py "user", prompt_template g1 g2)].
Proof.
  intros H1 H2.
  exists (chat_request (prompt_template g1 g2)).
  rewrite (create_sends env1 c1 _ _ w1 H1), (create_sends env2 c2 _ _ w2 H2).
  repeat split.
Qed.

Lemma prompt_deterministic_witness :
  client (example_env (Some (mock_client (py "MOCK")))) = Some (mock_client (py "MOCK")) /\
  client (example_env (Some (raising_client (PyExc (ClientError false) (py "Connection error.")))))
    = Some (raising_client (PyExc (ClientError false) (py "Connection error."))) /\
  exists req : ChatRequest,
    chat_calls (create_game_mashup (example_env (Some (mock_client (py "MOCK"))))
                  (JStr (py "Tetris")) (JStr (py "Dark Souls")) fresh_world).2
      = chat_calls fresh_world ++ [req] /\
    chat_calls (create_game_mashup
                  (example_env (Some (raising_client
                                        (PyExc (ClientError false) (py "Connection error.")))))
                  (JStr (py "Tetris")) (JStr (py "Dark Souls"))
                  (log_line (py "earlier output") fresh_world)).2
      = chat_calls (log_line (py "earlier output") fresh_world) ++ [req] /\
    messages req =
      [(py "system", system_content);
       (py "user", prompt_template (py "Tetris") (py "Dark Souls"))].
Proof.
  split; [reflexivity | ]. split; [reflexivity | ].
  apply (prompt_deterministic
           (example_env (Some (mock_client (py "MOCK"))))
           (example_env (Some (raising_client
                                 (PyExc (ClientError false) (py "Connection error.")))))
           (mock_client (py "MOCK"))
           (raising_client (PyExc (ClientError false) (py "Connection error.")))
           fresh_world (log_line (py "earlier output") fresh_world)
           (py "Tetris") (py "Dark Souls")); reflexivity.
Defined.

(** ** Upstream failures *)

Lemma request_for_obj (env : Env) (d : gmap pystr json) (g1 g2 : json) :
  d !! py "game1_data" = Some g1 -> d !! py "game2_data" = Some g2 ->
  request_for env (JObj d) =
  Some (chat_request (prompt_template (format_value env g1) (format_value env g2))).
Proof.
  intros H1 H2. unfold request_for, getitem. now rewrite H1, H2.
Qed.

Lemma api_prefix_clean : has_surrogate (py "❌ Error in API: ") = false.
Proof. vm_compute. reflexivity. Qed.

(** The handler on a body that is not [None]. *)
Lemma api_of_process (env : Env) (data : json) (w : World) :
  data <> JNull ->
  api_create_mashup env (Return data) w =
  match process_game_mashup env data w with
  | (Return r, w') => ({| body := MashupBody r; status := 200 |}, w')
  | (Raise e, w') =>
    if isinstance_ValueError e then
      ({| body := ErrorBody (exc_str e); status := 400 |}, w')
    else if has_surrogate (exc_str e) then
      ({| body := FlaskInternalError; status := 500 |}, w')
    else
      ({| body := ErrorBody (exc_str e); status := 500 |},
       log_line (py "❌ Error in API: " ++ exc_str e) w')
  end.
Proof.
  intros Hdata. unfold api_create_mashup, bind, lift, ret.
  destruct data; try congruence;
    destruct (process_game_mashup env _ w) as [[r | e] w']; try reflexivity;
    destruct (isinstance_ValueError e); try reflexivity;
    unfold print; rewrite has_surrogate_app, api_prefix_clean; cbn [orb];
    destruct (has_surrogate (exc_str e)); reflexivity.
Qed.

Lemma progress_printable_obj (env : Env) (d : gmap pystr json) (n : json) :
  d !! py "mashup_name" = Some n ->
  progress_printable env (JObj d) ->
  has_surrogate (progress_line env n) = false.
Proof.
  intros Hn [n' [Hget Hp]]. unfold getitem in Hget. rewrite Hn in Hget.
  now injection Hget as <-.
Qed.




(** ** When a result is returned *)

Lemma completion_for_obj (env : Env) (c : OpenAI) (d : gmap pystr json)
    (g1 g2 : json) (w : World) :
  client env = Some c ->
  d !! py "game1_data" = Some g1 -> d !! py "game2_data" = Some g2 ->
  completion_for env (JObj d) w =
  Some (c (length (chat_calls w))
          (chat_request (prompt_template (format_value env g1) (format_value env g2)))).
Proof.
  intros Hc H1 H2. unfold completion_for.
  now rewrite Hc, (request_for_obj env d g1 g2 H1 H2).
Qed.




(** ** No client configured *)

(** Without a client, [create_game_mashup] returns its notice as if it were
    the generated text, and a valid payload gets a result that says
    success. *)
Lemma unconfigured_returns_result (env : Env) (d : gmap pystr json)
    (n g1 g2 e1 e2 : json) (w : World) :
  client env = None ->
  d !! py "mashup_name" = Some n -> d !! py "game1_data" = Some g1 ->
  d !! py "game2_data" = Some g2 ->
  truthy n = true -> truthy g1 = true -> truthy g2 = true ->
  has_surrogate (progress_line env n) = false ->
  excerpt g1 = Return e1 -> excerpt g2 = Return e2 ->
  process_game_mashup env (JObj d) w =
  (Return (mashup_result env (log_line (progress_line env n) w) n
             (JStr (py "OpenAI client is not initialized. Please check your API key and environment variables."))
             e1 e2),
   count_clock (count_urandom (log_line (progress_line env n) w))).
Proof.
  intros Hc Hn H1 H2 Tn T1 T2 Hp He1 He2.
  rewrite (process_valid env d n g1 g2 w Hn H1 H2 Tn T1 T2), Hp.
  rewrite (create_unconfigured env g1 g2 _ Hc). now rewrite He1, He2.
Qed.

(** C2, at a concrete request: with no client configured, the handler
    answers a valid payload with status 200 and a result that says success,
    whose concept is the notice about the missing client; the client was
    not called. *)
Theorem unconfigured_client_reports_success :
  exists (r : MashupResult) (w' : World),
    api_create_mashup (example_env None)
      (Return (payload (JStr (py "TestMash")) (JStr (py "x")) (JStr (py "y"))))
      fresh_world
    = ({| body := MashupBody r; status := 200%nat |}, w') /\
    success r = true /\
    message_text r = py "Game mashup created successfully!" /\
    concept r = JStr (py "OpenAI client is not initialized. Please check your API key and environment variables.") /\
    chat_calls w' = [].
Proof.
  eexists _, _. split; [vm_compute; reflexivity | ].
  repeat split.
Qed.

(* ===================================================================== *)
(** * Further properties of the request pipeline *)
(* ===================================================================== *)

Lemma non_object_fails_validation (data : json) :
  (forall d, data <> JObj d) ->
  exists e, check_required data required_fields = Raise e.
Proof.
  intros Hno. destruct (check_required data required_fields) as [[] | e] eqn:Hc.
  - apply check_required_pass_obj in Hc as [d ->]. now destruct (Hno d).
  - now exists e.
Qed.

(** What validation raises is a [ValueError] or has a text that prints. *)
Lemma validation_error_printable (data : json) (e : pyexc) :
  check_required data required_fields = Raise e ->
  isinstance_ValueError e = true \/ has_surrogate (exc_str e) = false.
Proof.
  destruct data as [ | b | z | x | s | l | m]; unfold required_fields;
    cbn [check_required py_in obind].
  - intros [= <-]. right. vm_compute. reflexivity.
  - intros [= <-]. right. vm_compute. reflexivity.
  - intros [= <-]. right. vm_compute. reflexivity.
  - intros [= <-]. right. vm_compute. reflexivity.
  - destruct (str_contains s _); cbn [negb getitem obind].
    + intros [= <-]. right. vm_compute. reflexivity.
    + intros [= <-]. now left.
  - destruct (existsb _ l); cbn [negb getitem obind].
    + intros [= <-]. right. vm_compute. reflexivity.
    + intros [= <-]. now left.
  - intros H.
    change (check_required (JObj m) required_fields = Raise e) in H.
    rewrite check_required_obj in H.
    destruct (List.find _ _); [ | discriminate]. injection H as <-. now left.
Qed.

(** A body that is not a JSON object never gets a result: the answer is an
    error with status 400 or 500, and neither the client, the random source
    nor the clock has been used. *)
Theorem non_object_body_never_succeeds (env : Env) (data : json) (w : World) :
  (forall d, data <> JObj d) ->
  exists (msg : pystr) (code : nat) (w' : World),
    api_create_mashup env (Return data) w = ({| body := ErrorBody msg; status := code |}, w') /\
    (code = 400%nat \/ code = 500%nat) /\
    same_io w' w.
Proof.
  intros Hno.
  assert (Hcase : data = JNull \/ data <> JNull)
    by (destruct data; (now left) || (right; discriminate)).
  destruct Hcase as [-> | Hnull].
  - eexists _, _, _. split; [reflexivity | ]. split; [now left | ]. now repeat split.
  - destruct (non_object_fails_validation data Hno) as [e He].
    rewrite (api_of_process env data w Hnull), (process_invalid env data e w He).
    destruct (validation_error_printable data e He) as [Hv | Hp].
    + rewrite Hv. eexists _, _, _.
      split; [reflexivity | ]. split; [auto | ]. now repeat split.
    + rewrite Hp. destruct (isinstance_ValueError e); eexists _, _, _;
        (split; [reflexivity | ]); (split; [auto | ]); now repeat split.
Qed.

Lemma non_object_body_never_succeeds_witness :
  (forall d, JArr [JStr (py "mashup_name")] <> JObj d) /\
  exists (msg : pystr) (code : nat) (w' : World),
    api_create_mashup (example_env (Some (mock_client (py "MOCK"))))
      (Return (JArr [JStr (py "mashup_name")])) fresh_world
    = ({| body := ErrorBody msg; status := code |}, w') /\
    (code = 400%nat \/ code = 500%nat) /\
    same_io w' fresh_world.
Proof.
  assert (H : forall d, JArr [JStr (py "mashup_name")] <> JObj d) by discriminate.
  split; [exact H | ].
  exact (non_object_body_never_succeeds
           (example_env (Some (mock_client (py "MOCK")))) _ fresh_world H).
Defined.

(** A JSON string or array as the body: [field in data] is then a substring
    or membership test.  The answer is 400 naming mashup_name when the body
    does not hold that name, and 500 when it does, because [data[field]]
    then fails. *)
Theorem string_or_list_body (env : Env) (w : World) :
  (forall s : pystr,
     if str_contains s (py "mashup_name") then
       exists msg w', api_create_mashup env (Return (JStr s)) w =
                      ({| body := ErrorBody msg; status := 500 |}, w')
     else
       api_create_mashup env (Return (JStr s)) w =
       ({| body := ErrorBody (py "Missing required field: mashup_name"); status := 400 |}, w)) /\
  (forall l : list json,
     if existsb (fun x => match x with
                          | JStr s => bool_decide (s = py "mashup_name")
                          | _ => false
                          end) l then
       exists msg w', api_create_mashup env (Return (JArr l)) w =
                      ({| body := ErrorBody msg; status := 500 |}, w')
     else
       api_create_mashup env (Return (JArr l)) w =
       ({| body := ErrorBody (py "Missing required field: mashup_name"); status := 400 |}, w)).
Proof.
  split.
  - intros s. rewrite api_of_process by discriminate.
    destruct (str_contains s (py "mashup_name")) eqn:Hin.
    + erewrite process_invalid
        by (unfold required_fields; cbn [check_required py_in obind];
            rewrite Hin; reflexivity).
      eexists _, _. reflexivity.
    + erewrite process_invalid
        by (unfold required_fields; cbn [check_required py_in obind];
            rewrite Hin; reflexivity).
      reflexivity.
  - intros l. rewrite api_of_process by discriminate.
    destruct (existsb _ l) eqn:Hin.
    + erewrite process_invalid
        by (unfold required_fields; cbn [check_required py_in obind];
            rewrite Hin; reflexivity).
      eexists _, _. reflexivity.
    + erewrite process_invalid
        by (unfold required_fields; cbn [check_required py_in obind];
            rewrite Hin; reflexivity).
      reflexivity.
Qed.

(** ** What one request can use *)

Lemma create_effects (env : Env) (g1 g2 : json) (w : World) :
  let w1 := (create_game_mashup env g1 g2 w).2 in
  chat_calls w1 = chat_calls w \/ exists req, chat_calls w1 = chat_calls w ++ [req].
Proof.
  destruct (client env) as [c | ] eqn:Hc.
  - right. eexists. apply (create_sends env c g1 g2 w Hc).
  - left. now rewrite (create_unconfigured env g1 g2 w Hc).
Qed.

Lemma process_effects (env : Env) (data : json) (w : World) :
  at_most_one_more w (process_game_mashup env data w).2.
Proof.
  destruct (check_required data required_fields) as [[] | e] eqn:Hcheck.
  - apply validation_passes_iff in Hcheck as [d [-> Hall]].
    destruct (Hall (py "mashup_name")) as [n [Hn Tn]]; [now left | ].
    destruct (Hall (py "game1_data")) as [g1 [H1 T1]]; [right; now left | ].
    destruct (Hall (py "game2_data")) as [g2 [H2 T2]]; [right; right; now left | ].
    rewrite (process_valid env d n g1 g2 w Hn H1 H2 Tn T1 T2).
    destruct (has_surrogate (progress_line env n));
      [unfold at_most_one_more; cbn; auto | ].
    pose proof (create_effects env g1 g2 (log_line (progress_line env n) w)) as Hcalls.
    pose proof (create_keeps_counters env g1 g2 (log_line (progress_line env n) w))
      as (Hu & Hc & _).
    destruct (create_game_mashup env g1 g2 _) as [[text | e] w1];
      cbn [snd fst] in Hcalls, Hu, Hc; cbn [chat_calls urandom_reads clock_reads log_line] in Hcalls, Hu, Hc.
    + destruct (excerpt g1) as [e1 | e]; [destruct (excerpt g2) as [e2 | e] | ];
        unfold at_most_one_more; cbn; rewrite Hu, Hc; auto.
    + unfold at_most_one_more; cbn. rewrite Hu, Hc. auto.
  - rewrite (process_invalid env data e w Hcheck). unfold at_most_one_more; cbn. auto.
Qed.

(** No request, whatever its body and whatever the client answers, makes
    more than one call to the client, one read of the random source and one
    read of the clock; the calls made before it stay in the log. *)
Theorem request_uses_at_most_one_call (env : Env) (request_json : outcome json) (w : World) :
  at_most_one_more w (api_create_mashup env request_json w).2.
Proof.
  destruct request_json as [data | e].
  - assert (Hcase : data = JNull \/ data <> JNull)
      by (destruct data; (now left) || (right; discriminate)).
    destruct Hcase as [-> | Hnull].
    + unfold at_most_one_more; cbn. auto.
    + rewrite (api_of_process env data w Hnull).
      pose proof (process_effects env data w) as Heff.
      destruct (process_game_mashup env data w) as [[r | e] w']; cbn [snd] in *;
        [exact Heff | ].
      destruct (isinstance_ValueError e);
        [exact Heff | destruct (has_surrogate (exc_str e)); exact Heff].
  - unfold api_create_mashup, bind, lift, print.
    destruct (isinstance_ValueError e); [unfold at_most_one_more; cbn; auto | ].
    destruct (has_surrogate _); unfold at_most_one_more; cbn; auto.
Qed.

(** A returned result, with a configured client, has cost exactly one
    client call, carrying the prompt built from the payload's two
    descriptions, one read of the random source, one read of the clock and
    one printed line. *)
Theorem result_costs_one_call (env : Env) (c : OpenAI) (d : gmap pystr json)
    (n g1 g2 : json) (w w' : World) (r : MashupResult) :
  client env = Some c ->
  d !! py "mashup_name" = Some n -> d !! py "game1_data" = Some g1 ->
  d !! py "game2_data" = Some g2 ->
  process_game_mashup env (JObj d) w = (Return r, w') ->
  chat_calls w' =
    chat_calls w ++
      [chat_request (prompt_template (format_value env g1) (format_value env g2))] /\
  urandom_reads w' = S (urandom_reads w) /\
  clock_reads w' = S (clock_reads w) /\
  stdout w' = stdout w ++ [py "Creating mashup concept: " ++ format_value env n ++ py "..."].
Proof.
  intros Hc Hn H1 H2 Hrun.
  apply process_returns_inv in Hrun
    as (d' & n' & g1' & g2' & text & w1 & e1 & e2 & Hd & Hn' & H1' & H2' & _ & _ & _
        & Hcreate & _ & _ & _ & ->).
  injection Hd as <-.
  rewrite Hn in Hn'. rewrite H1 in H1'. rewrite H2 in H2'.
  injection Hn' as <-. injection H1' as <-. injection H2' as <-.
  pose proof (create_sends env c g1 g2 (log_line (progress_line env n) w) Hc) as Hcalls.
  pose proof (create_keeps_counters env g1 g2 (log_line (progress_line env n) w))
    as (Hu & Hk & Ho).
  rewrite Hcreate in Hcalls, Hu, Hk, Ho. cbn in Hcalls, Hu, Hk, Ho.
  cbn. rewrite Hu, Hk, Ho. repeat split. exact Hcalls.
Qed.

Lemma result_costs_one_call_witness :
  process_game_mashup (example_env (Some (mock_client (py "MOCK"))))
    (payload (JStr (py "TestMash")) (JStr (py "x")) (JStr (py "y"))) fresh_world
  = (Return (mashup_result (example_env (Some (mock_client (py "MOCK"))))
               fresh_world (JStr (py "TestMash")) (JStr (py "MOCK"))
               (JStr (py "x")) (JStr (py "y"))),
     count_clock (count_urandom
       (log_call (chat_request (prompt_template (py "x") (py "y")))
          (log_line (py "Creating mashup concept: TestMash...") fresh_world)))) /\
  urandom_reads
    (count_clock (count_urandom
       (log_call (chat_request (prompt_template (py "x") (py "y")))
          (log_line (py "Creating mashup concept: TestMash...") fresh_world))))
  = 1%nat.
Proof.
  assert (Hrun :
    process_game_mashup (example_env (Some (mock_client (py "MOCK"))))
      (JObj (payload_fields (JStr (py "TestMash")) (JStr (py "x")) (JStr (py "y"))))
      fresh_world
    = (Return (mashup_result (example_env (Some (mock_client (py "MOCK"))))
                 fresh_world (JStr (py "TestMash")) (JStr (py "MOCK"))
                 (JStr (py "x")) (JStr (py "y"))),
       count_clock (count_urandom
         (log_call (chat_request (prompt_template (py "x") (py "y")))
            (log_line (py "Creating mashup concept: TestMash...") fresh_world)))))
    by (vm_compute; reflexivity).
  split; [exact Hrun | ].
  refine (proj1 (proj2 (result_costs_one_call
            (example_env (Some (mock_client (py "MOCK")))) (mock_client (py "MOCK"))
            (payload_fields (JStr (py "TestMash")) (JStr (py "x")) (JStr (py "y")))
            (JStr (py "TestMash")) (JStr (py "x")) (JStr (py "y"))
            fresh_world _ _ eq_refl _ _ _ Hrun))); vm_compute; reflexivity.
Defined.

(** ** Keys the payload does not need *)

(** Two payloads that agree on the three required keys are treated alike:
    any further key is ignored. *)
Theorem extra_keys_ignored (env : Env) (d d' : gmap pystr json) (w : World) :
  d !! py "mashup_name" = d' !! py "mashup_name" ->
  d !! py "game1_data" = d' !! py "game1_data" ->
  d !! py "game2_data" = d' !! py "game2_data" ->
  process_game_mashup env (JObj d) w = process_game_mashup env (JObj d') w.
Proof.
  intros Hn H1 H2.
  assert (Hmiss : forall f, In f required_fields -> field_missing d f = field_missing d' f).
  { intros f [<- | [<- | [<- | []]]]; unfold field_missing; now rewrite ?Hn, ?H1, ?H2. }
  assert (Hcheck : check_required (JObj d) required_fields
                   = check_required (JObj d') required_fields).
  { rewrite !check_required_obj. unfold required_fields in *. cbn [List.find].
    rewrite !Hmiss by (cbn; auto). reflexivity. }
  destruct (check_required (JObj d) required_fields) as [[] | e] eqn:Hc.
  - pose proof Hc as Hc'. rewrite Hcheck in Hc'.
    apply validation_passes_iff in Hc as [d0 [Hd0 Hall]]. injection Hd0 as <-.
    destruct (Hall (py "mashup_name")) as [n [Gn Tn]]; [now left | ].
    destruct (Hall (py "game1_data")) as [g1 [G1 T1]]; [right; now left | ].
    destruct (Hall (py "game2_data")) as [g2 [G2 T2]]; [right; right; now left | ].
    rewrite (process_valid env d n g1 g2 w Gn G1 G2 Tn T1 T2).
    rewrite Hn in Gn. rewrite H1 in G1. rewrite H2 in G2.
    now rewrite (process_valid env d' n g1 g2 w Gn G1 G2 Tn T1 T2).
  - rewrite (process_invalid env _ e w Hc).
    symmetry. apply process_invalid. now rewrite <- Hcheck.
Qed.

Lemma extra_keys_ignored_witness :
  process_game_mashup (example_env (Some (mock_client (py "MOCK"))))
    (JObj (<[py "debug" := JBool true]>
             (payload_fields (JStr (py "TestMash")) (JStr (py "x")) (JStr (py "y")))))
    fresh_world
  = process_game_mashup (example_env (Some (mock_client (py "MOCK"))))
      (JObj (payload_fields (JStr (py "TestMash")) (JStr (py "x")) (JStr (py "y"))))
      fresh_world.
Proof.
  apply extra_keys_ignored; vm_compute; reflexivity.
Defined.

(** ** More on excerpts and results *)

(** The excerpt of a string never has more than 103 characters, and it
    starts as the string does: both have the same first 100 characters. *)
Theorem excerpt_bounded (s : pystr) :
  exists e : pystr,
    excerpt (JStr s) = Return (JStr e) /\
    (length e <= 103)%nat /\
    (length e <= length s + 3)%nat /\
    take 100 e = take 100 s.
Proof.
  unfold excerpt. destruct (100 <? length s)%nat eqn:Hlen.
  - apply Nat.ltb_lt in Hlen. eexists. split; [reflexivity | ].
    rewrite length_app, length_take.
    change (length (py "...")) with 3%nat.
    repeat split; try lia.
    rewrite take_app_le by (rewrite length_take; lia). now rewrite take_take.
  - apply Nat.ltb_ge in Hlen. eexists. split; [reflexivity | ].
    repeat split; lia.
Qed.

(** Cutting an excerpt again changes nothing: whatever [excerpt] returns,
    for a value of any type, is its own excerpt. *)
Theorem excerpt_idempotent (x : json) :
  obind (excerpt x) excerpt = excerpt x.
Proof.
  destruct x as [ | b | z | f | s | l | m]; try reflexivity.
  - cbn [excerpt obind]. destruct (100 <? length s)%nat eqn:Hlen; [ | now rewrite Hlen].
    apply Nat.ltb_lt in Hlen.
    assert (H103 : (100 <? length (take 100 s ++ py "..."))%nat = true).
    { apply Nat.ltb_lt. rewrite length_app, length_take.
      change (length (py "...")) with 3%nat. lia. }
    rewrite H103. do 2 f_equal.
    rewrite take_app_le by (rewrite length_take; lia). now rewrite take_take.
  - cbn [excerpt]. destruct (100 <? length l)%nat eqn:Hlen; [reflexivity | ].
    cbn [obind excerpt]. now rewrite Hlen.
  - cbn [excerpt]. destruct (100 <? size m)%nat eqn:Hlen; [reflexivity | ].
    cbn [obind excerpt]. now rewrite Hlen.
Qed.

(** A result gives the project name back as it came, of whatever JSON type,
    and is stamped with the formatted time read from the clock during the
    call. *)
Theorem result_echoes_name (env : Env) (d : gmap pystr json) (w w' : World)
    (r : MashupResult) :
  process_game_mashup env (JObj d) w = (Return r, w') ->
  d !! py "mashup_name" = Some (mashup_name r) /\
  generated_at r = now_strftime env (clock_reads w) /\
  message_text r = py "Game mashup created successfully!".
Proof.
  intros Hrun.
  apply process_returns_inv in Hrun
    as (d' & n & g1 & g2 & text & w1 & e1 & e2 & Hd & Hn & _ & _ & _ & _ & _
        & Hcreate & _ & _ & -> & _).
  injection Hd as <-.
  pose proof (create_keeps_counters env g1 g2 (log_line (progress_line env n) w))
    as (_ & Hk & _).
  rewrite Hcreate in Hk. cbn in Hk.
  cbn. rewrite Hk. now repeat split.
Qed.

Lemma result_echoes_name_witness :
  process_game_mashup (example_env (Some (mock_client (py "MOCK"))))
    (JObj (payload_fields (JInt 5) (JStr (py "x")) (JStr (py "y")))) fresh_world
  = (Return (mashup_result (example_env (Some (mock_client (py "MOCK"))))
               fresh_world (JInt 5) (JStr (py "MOCK")) (JStr (py "x")) (JStr (py "y"))),
     count_clock (count_urandom
       (log_call (chat_request (prompt_template (py "x") (py "y")))
          (log_line (py "Creating mashup concept: 5...") fresh_world)))) /\
  payload_fields (JInt 5) (JStr (py "x")) (JStr (py "y")) !! py "mashup_name"
  = Some (JInt 5).
Proof.
  assert (Hrun :
    process_game_mashup (example_env (Some (mock_client (py "MOCK"))))
      (JObj (payload_fields (JInt 5) (JStr (py "x")) (JStr (py "y")))) fresh_world
    = (Return (mashup_result (example_env (Some (mock_client (py "MOCK"))))
                 fresh_world (JInt 5) (JStr (py "MOCK")) (JStr (py "x")) (JStr (py "y"))),
       count_clock (count_urandom
         (log_call (chat_request (prompt_template (py "x") (py "y")))
            (log_line (py "Creating mashup concept: 5...") fresh_world)))))
    by (vm_compute; reflexivity).
  split; [exact Hrun | ].
  exact (proj1 (result_echoes_name _ _ _ _ _ Hrun)).
Defined.

(** A completion without choices, for a payload whose progress line has
    been printed: [response.choices[0]] raises IndexError, and the handler
    answers 500 with that error's text after the one call it made. *)
Theorem empty_choices_is_500 (env : Env) (c : OpenAI) (data : json) (w : World) :
  client env = Some c ->
  validation_passes data ->
  progress_printable env data ->
  completion_for env data w = Some (Return {| choices := [] |}) ->
  exists (req : ChatRequest) (w' : World),
    request_for env data = Some req /\
    api_create_mashup env (Return data) w =
      ({| body := ErrorBody (py "list index out of range"); status := 500 |}, w') /\
    chat_calls w' = chat_calls w ++ [req] /\
    urandom_reads w' = urandom_reads w /\ clock_reads w' = clock_reads w.
Proof.
  intros Hc Hvalid Hprint Hcomp.
  apply validation_passes_iff in Hvalid as [d [-> Hall]].
  destruct (Hall (py "mashup_name")) as [n [Hn Tn]]; [now left | ].
  destruct (Hall (py "game1_data")) as [g1 [H1 T1]]; [right; now left | ].
  destruct (Hall (py "game2_data")) as [g2 [H2 T2]]; [right; right; now left | ].
  pose proof (progress_printable_obj env d n Hn Hprint) as Hp.
  rewrite (completion_for_obj env c d g1 g2 w Hc H1 H2) in Hcomp.
  injection Hcomp as Hcomp.
  rewrite (request_for_obj env d g1 g2 H1 H2).
  rewrite api_of_process by discriminate.
  rewrite (process_valid env d n g1 g2 w Hn H1 H2 Tn T1 T2), Hp.
  rewrite (create_configured env c g1 g2 _ Hc).
  cbn [chat_calls log_line]. rewrite Hcomp.
  cbn [choices isinstance_ValueError exc_type exc_str].
  replace (has_surrogate (py "list index out of range")) with false
    by (vm_compute; reflexivity).
  eexists _, _. split; [reflexivity | ]. split; [reflexivity | ]. now repeat split.
Qed.

Lemma empty_choices_is_500_witness :
  client (example_env (Some (fun _ _ => Return {| choices := [] |})))
  = Some (fun _ _ => Return {| choices := [] |}) /\
  progress_printable (example_env (Some (fun _ _ => Return {| choices := [] |})))
    (payload (JStr (py "TestMash")) (JStr (py "x")) (JStr (py "y"))) /\
  exists (req : ChatRequest) (w' : World),
    request_for (example_env (Some (fun _ _ => Return {| choices := [] |})))
      (payload (JStr (py "TestMash")) (JStr (py "x")) (JStr (py "y"))) = Some req /\
    api_create_mashup (example_env (Some (fun _ _ => Return {| choices := [] |})))
      (Return (payload (JStr (py "TestMash")) (JStr (py "x")) (JStr (py "y")))) fresh_world
    = ({| body := ErrorBody (py "list index out of range"); status := 500 |}, w') /\
    chat_calls w' = chat_calls fresh_world ++ [req] /\
    urandom_reads w' = urandom_reads fresh_world /\
    clock_reads w' = clock_reads fresh_world.
Proof.
  assert (Hprint :
    progress_printable (example_env (Some (fun _ _ => Return {| choices := [] |})))
      (payload (JStr (py "TestMash")) (JStr (py "x")) (JStr (py "y")))).
  { exists (JStr (py "TestMash")). split; vm_compute; reflexivity. }
  split; [reflexivity | ]. split; [exact Hprint | ].
  apply (empty_choices_is_500
           (example_env (Some (fun _ _ => Return {| choices := [] |})))
           (fun _ _ => Return {| choices := [] |})
           (payload (JStr (py "TestMash")) (JStr (py "x")) (JStr (py "y"))) fresh_world).
  - reflexivity.
  - vm_compute. reflexivity.
  - exact Hprint.
  - vm_compute. reflexivity.
Defined.

(** ** The identifier and the random bytes *)

Lemma hex_digits_length (fuel : nat) :
  forall (k : nat) (n : N) (acc : pystr),
    n < 16 ^ N.of_nat k ->
    (length (hex_digits fuel n acc) <= k + length acc)%nat.
Proof.
  induction fuel as [ | fuel IH]; intros k n acc Hn; cbn [hex_digits]; [lia | ].
  destruct (n =? 0) eqn:Hz; [lia | ].
  apply N.eqb_neq in Hz.
  destruct k as [ | k]; [cbn in Hn; lia | ].
  rewrite Nat2N.inj_succ, N.pow_succ_r' in Hn.
  specialize (IH k (n / 16) (hex_digit (n mod 16) :: acc)).
  cbn [length] in IH.
  assert (n / 16 < 16 ^ N.of_nat k) by (apply N.Div0.div_lt_upper_bound; lia).
  specialize (IH H). lia.
Qed.

Lemma format_032x_length_32 (n : N) :
  n < 2 ^ 128 -> length (format_032x n) = 32%nat.
Proof.
  intros Hn. unfold format_032x. cbv zeta. rewrite length_app, repeat_length.
  assert (length (format_x n) <= 32)%nat; [ | lia].
  unfold format_x. destruct (n =? 0); [change (length (py "0")) with 1%nat; lia | ].
  assert (Hn' : n < 16 ^ N.of_nat 32) by exact Hn.
  pose proof (hex_digits_length (N.size_nat n) 32 n [] Hn') as H.
  cbn [length] in H. lia.
Qed.

Lemma hex_value_app (a b : pystr) :
  hex_value (a ++ b) =
  fold_left (fun acc c => acc * 16 + hex_digit_value c) b (hex_value a).
Proof. unfold hex_value. apply fold_left_app. Qed.

Lemma hex_fold_split (b : pystr) :
  Forall (fun c => is_lower_hex c = true) b ->
  forall v : N,
    exists low : N,
      low < 16 ^ N.of_nat (length b) /\
      fold_left (fun acc c => acc * 16 + hex_digit_value c) b v =
      v * 16 ^ N.of_nat (length b) + low.
Proof.
  induction 1 as [ | c b Hc Hb IH]; intros v.
  - exists 0. cbn. split; lia.
  - cbn [fold_left length]. destruct (IH (v * 16 + hex_digit_value c)) as [low [Hlow ->]].
    assert (Hd : hex_digit_value c < 16).
    { unfold is_lower_hex in Hc. unfold hex_digit_value.
      apply orb_true_iff in Hc as [Hc | Hc]; apply andb_true_iff in Hc as [H1 H2];
        apply N.leb_le in H1, H2.
      - replace (c <? 58) with true by (symmetry; apply N.ltb_lt; lia). lia.
      - replace (c <? 58) with false by (symmetry; apply N.ltb_ge; lia). lia. }
    rewrite Nat2N.inj_succ, N.pow_succ_r'.
    exists (hex_digit_value c * 16 ^ N.of_nat (length b) + low). split; nia.
Qed.

Lemma hex_value_take (s : pystr) (k : nat) :
  Forall (fun c => is_lower_hex c = true) s ->
  hex_value (take k s) = hex_value s / 16 ^ N.of_nat (length (drop k s)).
Proof.
  intros Hs.
  rewrite <- (take_drop k s) at 2. rewrite hex_value_app.
  destruct (hex_fold_split (drop k s) (Forall_drop _ _ _ Hs) (hex_value (take k s)))
    as [low [Hlow ->]].
  apply N.div_unique with low; lia.
Qed.

Lemma bytes_fold_split (c : list Byte.byte) :
  forall v : N,
    fold_left (fun acc b => acc * 256 + Byte.to_N b) c v =
    v * 256 ^ N.of_nat (length c) + int_from_bytes c /\
    int_from_bytes c < 256 ^ N.of_nat (length c).
Proof.
  unfold int_from_bytes.
  induction c as [ | b c IH]; intros v.
  - cbn. split; lia.
  - cbn [fold_left length]. rewrite Nat2N.inj_succ, N.pow_succ_r'.
    destruct (IH (v * 256 + Byte.to_N b)) as [-> _].
    destruct (IH (0 * 256 + Byte.to_N b)) as [-> Hlow].
    pose proof (Byte.to_N_bounded b). split; nia.
Qed.

Lemma int_from_bytes_app (a c : list Byte.byte) :
  int_from_bytes (a ++ c) =
  int_from_bytes a * 256 ^ N.of_nat (length c) + int_from_bytes c.
Proof.
  unfold int_from_bytes at 1. rewrite fold_left_app.
  apply (bytes_fold_split c).
Qed.

(** The version and variant bits sit below bit 80: shifting them out leaves
    the bytes as they were read. *)
Lemma UUID_high_bits (bs : list Byte.byte) (k : N) :
  80 <= k ->
  N.shiftr (uuid_int (UUID_of_bytes bs 4)) k = N.shiftr (int_from_bytes bs) k.
Proof.
  intros Hk. unfold UUID_of_bytes. cbn [uuid_int].
  repeat (rewrite N.shiftr_lor || rewrite N.shiftr_ldiff).
  assert (Hconst : forall c, c < 2 ^ 80 -> N.shiftr c k = 0).
  { intros c Hc. rewrite N.shiftr_div_pow2. apply N.div_small.
    apply N.lt_le_trans with (2 ^ 80); [exact Hc | ].
    apply N.pow_le_mono_r; lia. }
  rewrite (Hconst (N.shiftl 0xc000 48)) by reflexivity.
  rewrite (Hconst (N.shiftl 0x8000 48)) by reflexivity.
  rewrite (Hconst (N.shiftl 0xf000 64)) by reflexivity.
  rewrite (Hconst (N.shiftl 4 76)) by reflexivity.
  now rewrite !N.ldiff_0_r, !N.lor_0_r.
Qed.

Lemma uuid4_int_bounds (b : nat -> Byte.byte) :
  uuid_int (UUID_of_bytes (map b (seq 0 16)) 4) < 2 ^ 128 /\
  uuid_int (UUID_of_bytes (map b (seq 0 16)) 4) / 2 ^ 96 = int_from_bytes (map b (seq 0 4)).
Proof.
  change (map b (seq 0 16)) with (map b (seq 0 4) ++ map b (seq 4 12)).
  pose proof (int_from_bytes_app (map b (seq 0 4)) (map b (seq 4 12))) as Happ.
  pose proof (proj2 (bytes_fold_split (map b (seq 4 12)) 0)) as Hlow.
  pose proof (proj2 (bytes_fold_split (map b (seq 0 4)) 0)) as Hhigh.
  change (256 ^ N.of_nat (length (map b (seq 4 12)))) with (2 ^ 96) in *.
  change (256 ^ N.of_nat (length (map b (seq 0 4)))) with (2 ^ 32) in *.
  split.
  - apply N.div_small_iff; [discriminate | ].
    rewrite <- N.shiftr_div_pow2, UUID_high_bits by discriminate.
    rewrite N.shiftr_div_pow2. apply N.div_small. rewrite Happ.
    change (2 ^ 128) with (2 ^ 32 * 2 ^ 96). nia.
  - rewrite <- N.shiftr_div_pow2, UUID_high_bits by discriminate.
    rewrite N.shiftr_div_pow2, Happ.
    symmetry. apply N.div_unique with (int_from_bytes (map b (seq 4 12))); [exact Hlow | lia].
Qed.

Lemma report_id_of_result (env : Env) (data : json) (w w' : World) (r : MashupResult) :
  process_game_mashup env data w = (Return r, w') ->
  report_id r =
  take 8 (format_032x
            (uuid_int (UUID_of_bytes (map (os_urandom env (urandom_reads w)) (seq 0 16)) 4))).
Proof.
  intros Hrun.
  apply process_returns_inv in Hrun
    as (d & n & g1 & g2 & text & w1 & e1 & e2 & _ & _ & _ & _ & _ & _ & _ & Hcreate
        & _ & _ & -> & _).
  pose proof (create_keeps_counters env g1 g2 (log_line (progress_line env n) w))
    as [Hreads _].
  rewrite Hcreate in Hreads. cbn in Hreads.
  cbn [report_id mashup_result]. unfold report_id_in.
  now rewrite Hreads, UUID_str_prefix.
Qed.

(** The identifier spells, in hexadecimal, the first four bytes of the
    16-byte random read: it carries 32 random bits, and the version and
    variant bits that [uuid4] fixes never reach it. *)
Theorem report_id_is_first_four_bytes (env : Env) (data : json) (w w' : World)
    (r : MashupResult) :
  process_game_mashup env data w = (Return r, w') ->
  hex_value (report_id r) =
  int_from_bytes (map (os_urandom env (urandom_reads w)) (seq 0 4)).
Proof.
  intros Hrun. rewrite (report_id_of_result env data w w' r Hrun).
  destruct (uuid4_int_bounds (os_urandom env (urandom_reads w))) as [Hlt Hdiv].
  rewrite hex_value_take by apply format_032x_lower.
  rewrite length_drop, (format_032x_length_32 _ Hlt), format_032x_value.
  exact Hdiv.
Qed.

Lemma report_id_is_first_four_bytes_witness :
  process_game_mashup (example_env (Some (mock_client (py "MOCK"))))
    (payload (JStr (py "TestMash")) (JStr (py "x")) (JStr (py "y"))) fresh_world
  = (Return (mashup_result (example_env (Some (mock_client (py "MOCK"))))
               fresh_world (JStr (py "TestMash")) (JStr (py "MOCK"))
               (JStr (py "x")) (JStr (py "y"))),
     count_clock (count_urandom
       (log_call (chat_request (prompt_template (py "x") (py "y")))
          (log_line (py "Creating mashup concept: TestMash...") fresh_world)))) /\
  hex_value (py "00254a6f") = int_from_bytes (map (example_urandom 0) (seq 0 4)).
Proof.
  assert (Hrun :
    process_game_mashup (example_env (Some (mock_client (py "MOCK"))))
      (payload (JStr (py "TestMash")) (JStr (py "x")) (JStr (py "y"))) fresh_world
    = (Return (mashup_result (example_env (Some (mock_client (py "MOCK"))))
                 fresh_world (JStr (py "TestMash")) (JStr (py "MOCK"))
                 (JStr (py "x")) (JStr (py "y"))),
       count_clock (count_urandom
         (log_call (chat_request (prompt_template (py "x") (py "y")))
            (log_line (py "Creating mashup concept: TestMash...") fresh_world)))))
    by (vm_compute; reflexivity).
  split; [exact Hrun | ].
  pose proof (report_id_is_first_four_bytes _ _ _ _ _ Hrun) as H.
  assert (Hid : report_id (mashup_result (example_env (Some (mock_client (py "MOCK"))))
               fresh_world (JStr (py "TestMash")) (JStr (py "MOCK"))
               (JStr (py "x")) (JStr (py "y"))) = py "00254a6f") by (vm_compute; reflexivity).
  rewrite Hid in H. exact H.
Defined.

(* ===================================================================== *)
(** * Start-up and the status endpoints *)
(* ===================================================================== *)

Lemma startup_lines_clean :
  has_surrogate (py "✅ OpenAI client initialized successfully") = false /\
  has_surrogate (py "❌ Failed to initialize OpenAI client: ") = false /\
  has_surrogate (py "OpenAI API key not found in environment variables") = false.
Proof. repeat split; vm_compute; reflexivity. Qed.

Lemma initialize_client_spec (new_OpenAI : pystr -> outcome OpenAI)
    (environ : gmap pystr pystr) (w : World) :
  initialize_client new_OpenAI environ w =
  match first_nonempty [environ !! py "OPENAI_KEY"; environ !! py "OPENAI_API_KEY";
                        environ !! py "OPENAI_TOKEN"] with
  | Some key =>
    match new_OpenAI key with
    | Return c =>
      (Return (Some c), log_line (py "✅ OpenAI client initialized successfully") w)
    | Raise e =>
      if has_surrogate (exc_str e) then
        (Raise (unicode_encode_error
                  (py "❌ Failed to initialize OpenAI client: " ++ exc_str e)), w)
      else
        (Return None,
         log_line (py "❌ Failed to initialize OpenAI client: " ++ exc_str e) w)
    end
  | None =>
    (Return None,
     log_line (py "❌ Failed to initialize OpenAI client: "
                 ++ py "OpenAI API key not found in environment variables") w)
  end.
Proof.
  destruct startup_lines_clean as (Hok & Hfail & Hnone).
  assert (Hkey : forall k : pystr,
    (let try_block : M OpenAI :=
       bind (lift (new_OpenAI k))
            (fun client =>
               bind (print (py "✅ OpenAI client initialized successfully"))
                    (fun _ => ret client)) in
     match try_block w with
     | (Return client, w') => (Return (Some client), w')
     | (Raise e, w') =>
       match print (py "❌ Failed to initialize OpenAI client: " ++ exc_str e) w' with
       | (Return _, w'') => (Return None, w'')
       | (Raise e', w'') => (Raise e', w'')
       end
     end) =
    match new_OpenAI k with
    | Return c =>
      (Return (Some c), log_line (py "✅ OpenAI client initialized successfully") w)
    | Raise e =>
      if has_surrogate (exc_str e) then
        (Raise (unicode_encode_error
                  (py "❌ Failed to initialize OpenAI client: " ++ exc_str e)), w)
      else
        (Return None,
         log_line (py "❌ Failed to initialize OpenAI client: " ++ exc_str e) w)
    end).
  { intros k. cbv zeta. unfold bind, lift, ret.
    destruct (new_OpenAI k) as [c | e].
    - rewrite (print_ok _ w Hok). reflexivity.
    - unfold print. rewrite has_surrogate_app, Hfail. cbn [orb].
      destruct (has_surrogate (exc_str e)); reflexivity. }
  assert (Hnokey :
    (let try_block : M OpenAI :=
       bind (lift (Raise (PyExc ValueError
                            (py "OpenAI API key not found in environment variables"))))
            (fun client =>
               bind (print (py "✅ OpenAI client initialized successfully"))
                    (fun _ => ret client)) in
     match try_block w with
     | (Return client, w') => (Return (Some client), w')
     | (Raise e, w') =>
       match print (py "❌ Failed to initialize OpenAI client: " ++ exc_str e) w' with
       | (Return _, w'') => (Return None, w'')
       | (Raise e', w'') => (Raise e', w'')
       end
     end) =
    (Return None,
     log_line (py "❌ Failed to initialize OpenAI client: "
                 ++ py "OpenAI API key not found in environment variables") w)).
  { cbv zeta. unfold bind, lift. cbn [exc_str].
    rewrite print_ok; [reflexivity | ].
    rewrite has_surrogate_app, Hfail, Hnone. reflexivity. }
  unfold initialize_client.
  destruct (environ !! py "OPENAI_KEY") as [[ | ? ?] | ],
           (environ !! py "OPENAI_API_KEY") as [[ | ? ?] | ],
           (environ !! py "OPENAI_TOKEN") as [[ | ? ?] | ];
    cbn [py_or first_nonempty]; (apply Hkey || apply Hnokey).
Qed.


(** After start-up, the health endpoint reports the client as configured
    exactly when a non-empty key was found and the constructor returned a
    client for the first such key; the root endpoint's [client_ready] says
    the same; answering costs one read of the clock and nothing else. *)
Theorem health_after_startup (new_OpenAI : pystr -> outcome OpenAI)
    (environ environ_now : gmap pystr pystr)
    (urandom : nat -> nat -> Byte.byte) (strftime : nat -> pystr)
    (str_of : json -> pystr) (now_isoformat : nat -> pystr) (w : World) :
  let env := started new_OpenAI environ urandom strftime str_of in
  (openai_configured (health_check env now_isoformat w).1 = true <->
   exists key c,
     first_nonempty [environ !! py "OPENAI_KEY"; environ !! py "OPENAI_API_KEY";
                     environ !! py "OPENAI_TOKEN"] = Some key /\
     new_OpenAI key = Return c) /\
  client_ready (environment_check (home env environ_now)) =
    openai_configured (health_check env now_isoformat w).1 /\
  (health_check env now_isoformat w).2 = count_clock w.
Proof.
  intros env. split; [ | split; reflexivity].
  subst env. unfold health_check, started, bool_client.
  cbn [fst openai_configured client].
  rewrite initialize_client_spec.
  destruct (first_nonempty _) as [key | ].
  - destruct (new_OpenAI key) as [c | e] eqn:Hnew.
    + cbn [fst]. split; [intros _; now exists key, c | reflexivity].
    + assert (Hnone : match (if has_surrogate (exc_str e)
                             then (Raise (unicode_encode_error
                                    (py "❌ Failed to initialize OpenAI client: "
                                       ++ exc_str e)), fresh_world)
                             else (Return (@None OpenAI),
                                   log_line (py "❌ Failed to initialize OpenAI client: "
                                               ++ exc_str e) fresh_world)).1 with
                      | Return client => client
                      | Raise _ => None
                      end = None)
        by (destruct (has_surrogate (exc_str e)); reflexivity).
      rewrite Hnone. split; [discriminate | ].
      intros (key' & c & Hk & Hc). injection Hk as <-. congruence.
  - cbn [fst]. split; [discriminate | ]. intros (key & c & Hk & _). discriminate.
Qed.

(** A key given only as OPENAI_TOKEN starts the client, but the root
    endpoint looks for OPENAI_KEY and OPENAI_API_KEY alone: it reports
    [openai_key_set] false next to [client_ready] true. *)
Theorem token_only_configuration (new_OpenAI : pystr -> outcome OpenAI)
    (environ : gmap pystr pystr) (key : pystr) (c : OpenAI)
    (urandom : nat -> nat -> Byte.byte) (strftime : nat -> pystr)
    (str_of : json -> pystr) :
  str_truthy (environ !! py "OPENAI_KEY") = false ->
  str_truthy (environ !! py "OPENAI_API_KEY") = false ->
  environ !! py "OPENAI_TOKEN" = Some key -> key <> [] ->
  new_OpenAI key = Return c ->
  environment_check (home (started new_OpenAI environ urandom strftime str_of) environ)
  = {| openai_key_set := false; client_ready := true |}.
Proof.
  intros H1 H2 H3 Hkey Hnew.
  unfold home, started, bool_client. cbn [client].
  rewrite initialize_client_spec. rewrite H3.
  destruct key as [ | k0 key]; [congruence | ].
  destruct (environ !! py "OPENAI_KEY") as [[ | ? ?] | ]; try discriminate;
    destruct (environ !! py "OPENAI_API_KEY") as [[ | ? ?] | ]; try discriminate;
    cbn [first_nonempty py_or str_truthy]; rewrite Hnew; reflexivity.
Qed.

Lemma token_only_configuration_witness :
  environment_check
    (home (started (fun _ => Return (mock_client (py "MOCK")))
             (<[py "OPENAI_TOKEN" := py "sk-test"]> (<[py "OPENAI_KEY" := []]> ∅))
             example_urandom (fun _ => py "January 05, 2025 at 09:30 AM") example_py_str)
          (<[py "OPENAI_TOKEN" := py "sk-test"]> (<[py "OPENAI_KEY" := []]> ∅)))
  = {| openai_key_set := false; client_ready := true |}.
Proof.
  apply (token_only_configuration _ _ (py "sk-test") (mock_client (py "MOCK")));
    try (vm_compute; reflexivity).
  vm_compute. discriminate.
Defined.

(* ===================================================================== *)
(** * The test endpoint *)
(* ===================================================================== *)

(** What has been printed so far has no influence on a call. *)
Lemma process_same_io (env : Env) (data : json) (w1 w2 : World) :
  same_io w1 w2 ->
  (process_game_mashup env data w1).1 = (process_game_mashup env data w2).1 /\
  same_io (process_game_mashup env data w1).2 (process_game_mashup env data w2).2.
Proof.
  intros (Hc & Hu & Hk).
  destruct (check_required data required_fields) as [[] | e] eqn:Hcheck.
  - apply validation_passes_iff in Hcheck as [d [-> Hall]].
    destruct (Hall (py "mashup_name")) as [n [Hn Tn]]; [now left | ].
    destruct (Hall (py "game1_data")) as [g1 [H1 T1]]; [right; now left | ].
    destruct (Hall (py "game2_data")) as [g2 [H2 T2]]; [right; right; now left | ].
    rewrite !(process_valid env d n g1 g2 _ Hn H1 H2 Tn T1 T2).
    destruct (has_surrogate (progress_line env n));
      [cbn; unfold same_io; auto | ].
    assert (Hcreate :
      (create_game_mashup env g1 g2 (log_line (progress_line env n) w1)).1
      = (create_game_mashup env g1 g2 (log_line (progress_line env n) w2)).1 /\
      same_io (create_game_mashup env g1 g2 (log_line (progress_line env n) w1)).2
              (create_game_mashup env g1 g2 (log_line (progress_line env n) w2)).2).
    { destruct (client env) as [c | ] eqn:Hcl.
      - rewrite !(create_configured env c g1 g2 _ Hcl).
        cbn [chat_calls log_line]. rewrite Hc.
        destruct (c _ _) as [resp | e]; [destruct (choices resp) | ];
          cbn; unfold same_io; cbn; rewrite Hc, Hu, Hk; auto.
      - rewrite !(create_unconfigured env g1 g2 _ Hcl).
        cbn; unfold same_io; cbn; auto. }
    destruct (create_game_mashup env g1 g2 (log_line (progress_line env n) w1))
      as [o1 w1'], (create_game_mashup env g1 g2 (log_line (progress_line env n) w2))
      as [o2 w2'].
    cbn [fst snd] in Hcreate. destruct Hcreate as [<- (Hc' & Hu' & Hk')].
    destruct o1 as [text | e]; [ | cbn; unfold same_io; auto].
    destruct (excerpt g1) as [e1 | e]; [destruct (excerpt g2) as [e2 | e] | ];
      cbn; unfold same_io, mashup_result, report_id_in; cbn; rewrite ?Hc', ?Hu', ?Hk'; auto.
  - rewrite !(process_invalid env data e _ Hcheck). cbn. unfold same_io. auto.
Qed.

Lemma test_lines_clean :
  has_surrogate (py "🧪 Running test with sample mashup data...") = false /\
  has_surrogate (py "❌ Error in test endpoint: ") = false.
Proof. split; vm_compute; reflexivity. Qed.

Lemma test_endpoint_of_process (env : Env) (w : World) :
  test_endpoint env w =
  match process_game_mashup env sample_data
          (log_line (py "🧪 Running test with sample mashup data...") w) with
  | (Return r, w') => ({| body := MashupBody r; status := 200 |}, w')
  | (Raise e, w') =>
    if isinstance_ValueError e then
      ({| body := ErrorBody (exc_str e); status := 400 |}, w')
    else if has_surrogate (exc_str e) then
      ({| body := FlaskInternalError; status := 500 |}, w')
    else
      ({| body := ErrorBody (exc_str e); status := 500 |},
       log_line (py "❌ Error in test endpoint: " ++ exc_str e) w')
  end.
Proof.
  destruct test_lines_clean as [Hrun Herr].
  unfold test_endpoint, bind, ret. rewrite (print_ok _ w Hrun).
  destruct (process_game_mashup env sample_data _) as [[r | e] w']; [reflexivity | ].
  destruct (isinstance_ValueError e); [reflexivity | ].
  unfold print. rewrite has_surrogate_app, Herr. cbn [orb].
  destruct (has_surrogate (exc_str e)); reflexivity.
Qed.

(** The test endpoint answers as the main endpoint does to a POST of the
    sample payload: same body, same status, same use of the client, the
    random source and the clock.  Only the printed lines differ. *)
Theorem test_endpoint_as_post (env : Env) (w : World) :
  (test_endpoint env w).1 = (api_create_mashup env (Return sample_data) w).1 /\
  same_io (test_endpoint env w).2 (api_create_mashup env (Return sample_data) w).2.
Proof.
  rewrite api_of_process by discriminate.
  rewrite test_endpoint_of_process.
  pose proof (process_same_io env sample_data
                (log_line (py "🧪 Running test with sample mashup data...") w) w) as Hsame.
  destruct Hsame as [Ho Hw]; [unfold same_io; cbn; auto | ].
  destruct (process_game_mashup env sample_data (log_line _ w)) as [o1 w1],
           (process_game_mashup env sample_data w) as [o2 w2].
  cbn [fst snd] in Ho, Hw. subst o2.
  destruct o1 as [r | e]; [now split | ].
  destruct (isinstance_ValueError e); [now split | ].
  destruct (has_surrogate (exc_str e)); split; try reflexivity; exact Hw.
Qed.



(* ===================================================================== *)
(** * The demo page's script *)
(* ===================================================================== *)

Lemma utf16_decode_nonempty (u : N) (us : jsstr) : utf16_decode (u :: us) <> [].
Proof.
  cbn [utf16_decode]. destruct us as [ | lo rest]; [discriminate | ].
  destruct (_ && _); discriminate.
Qed.

Lemma createMashup_fetches (apiUrl : jsstr) (button : bool) (n g1 g2 : jsstr) :
  List.filter is_fetch (createMashup apiUrl button n g1 g2) =
  if negb (bool_decide (trim n = []))
     && (50 <=? length (trim g1))%nat && (50 <=? length (trim g2))%nat
  then [Fetch (apiUrl ++ js "/api/create-mashup") (trim n) (trim g1) (trim g2)]
  else [].
Proof.
  unfold createMashup. cbv zeta.
  destruct (trim n) as [ | n0 n'] eqn:Hn; [reflexivity | ].
  destruct (trim g1) as [ | a g1'] eqn:H1; [reflexivity | ].
  destruct (trim g2) as [ | b g2'] eqn:H2.
  { cbn [length]. rewrite andb_false_r. reflexivity. }
  assert (Hflip : forall k : nat, (50 <=? k)%nat = negb (k <? 50)%nat).
  { intros k. destruct (Nat.leb_spec 50 k), (Nat.ltb_spec k 50); (reflexivity || lia). }
  rewrite !Hflip. cbn [negb bool_decide decide_rel andb].
  replace (bool_decide (n0 :: n' = [])) with false
    by (symmetry; now apply bool_decide_eq_false).
  cbn [negb andb].
  destruct (length (a :: g1') <? 50)%nat, (length (b :: g2') <? 50)%nat;
    destruct button; reflexivity.
Qed.

(** The page posts a request exactly when, after trimming, the name is not
    empty and both descriptions have at least 50 UTF-16 units: then it
    posts once, with the trimmed values; otherwise it posts nothing. *)
Theorem page_posts_iff (apiUrl : jsstr) (button : bool) (n g1 g2 : jsstr) :
  List.filter is_fetch (createMashup apiUrl button n g1 g2) =
  if negb (bool_decide (trim n = []))
     && (50 <=? length (trim g1))%nat && (50 <=? length (trim g2))%nat
  then [Fetch (apiUrl ++ js "/api/create-mashup") (trim n) (trim g1) (trim g2)]
  else [].
Proof. apply createMashup_fetches. Qed.

(** Whatever the page posts passes the server's validation: the page's
    check is the stricter one. *)
Theorem page_post_passes_validation (apiUrl url : jsstr) (button : bool)
    (n g1 g2 name game1 game2 : jsstr) :
  In (Fetch url name game1 game2) (createMashup apiUrl button n g1 g2) ->
  validation_passes (posted_json name game1 game2) /\
  (50 <= length game1)%nat /\ (50 <= length game2)%nat.
Proof.
  intros Hin.
  assert (Hf : In (Fetch url name game1 game2)
                  (List.filter is_fetch (createMashup apiUrl button n g1 g2))).
  { apply filter_In. now split. }
  rewrite createMashup_fetches in Hf.
  destruct (negb _ && _ && _) eqn:Hcond; [ | destruct Hf].
  destruct Hf as [Heq | []]. injection Heq as _ <- <- <-.
  apply andb_true_iff in Hcond as [Hcond H2].
  apply andb_true_iff in Hcond as [Hn H1].
  apply Nat.leb_le in H1, H2.
  apply negb_true_iff, bool_decide_eq_false in Hn.
  split; [ | now split].
  destruct (trim n) as [ | n0 n'] eqn:En; [congruence | ].
  destruct (trim g1) as [ | a g1'] eqn:E1; [cbn in H1; lia | ].
  destruct (trim g2) as [ | b g2'] eqn:E2; [cbn in H2; lia | ].
  apply validation_passes_iff. eexists. split; [reflexivity | ].
  assert (Htruthy : forall u us, truthy (JStr (utf16_decode (u :: us))) = true).
  { intros u us. cbn [truthy]. apply negb_true_iff, bool_decide_eq_false.
    apply utf16_decode_nonempty. }
  unfold payload_fields.
  intros f [<- | [<- | [<- | []]]]; eexists; (split; [ | apply Htruthy]).
  - apply lookup_insert_eq.
  - rewrite lookup_insert_ne by (vm_compute; discriminate). apply lookup_insert_eq.
  - rewrite !lookup_insert_ne by (vm_compute; discriminate). apply lookup_insert_eq.
Qed.

Lemma page_post_passes_validation_witness :
  In (Fetch (js "http://localhost:5000/api/create-mashup")
        (js "Project Nexus") (trim sample_game1) (trim sample_game2))
     (createMashup (js "http://localhost:5000") true
        (js "  Project Nexus ") sample_game1 sample_game2) /\
  validation_passes
    (posted_json (js "Project Nexus") (trim sample_game1) (trim sample_game2)).
Proof.
  assert (Hin : In (Fetch (js "http://localhost:5000/api/create-mashup")
                      (js "Project Nexus") (trim sample_game1) (trim sample_game2))
                   (createMashup (js "http://localhost:5000") true
                      (js "  Project Nexus ") sample_game1 sample_game2)).
  { vm_compute. do 4 right. left. reflexivity. }
  split; [exact Hin | ].
  exact (proj1 (page_post_passes_validation _ _ _ _ _ _ _ _ _ Hin)).
Defined.
